(** * coreml-demo: the two conversion notebooks as effectful programs

    The repository holds two Jupyter notebooks.  Each one is a straight
    line of calls into external libraries (xgboost, torch, coremltools,
    matplotlib, PIL, numpy), a few list and dictionary constructions of
    its own, and a platform test in its last cell.

    The embedding below keeps that shape:
    - Python [str] values are lists of code points;
    - the builtin string and list operations the notebooks use
      ([str.split], [str.splitlines], [str.startswith], indexing,
      slicing, dict item assignment) are pure functions;
    - every call into a library, every import, [print] and the display of
      a cell's last expression is an operation of a signature [op]; a
      notebook is a tree of such operations ([prog]), and a run is the
      interpretation of that tree against an arbitrary environment that
      answers each operation with a result or with an exception. *)

From Stdlib Require Import List ZArith NArith Bool Lia String Ascii Floats.
Import ListNotations.
Local Open Scope Z_scope.

Set Implicit Arguments.
Set Warnings "-register-all,-inexact-float".

(* ================================================================== *)
(** ** Python strings *)

Module PyStr.

(** A Python [str] is a sequence of Unicode code points. *)
Definition str := list N.

(** A literal of the notebook source (all of them are ASCII). *)
Definition py (s : string) : str :=
  List.map N_of_ascii (list_ascii_of_string s).

Fixpoint eqb (a b : str) : bool :=
  match a, b with
  | [], [] => true
  | x :: a', y :: b' => N.eqb x y && eqb a' b'
  | _, _ => false
  end.

(** [s.startswith(p)] *)
Fixpoint startswith (s p : str) : bool :=
  match p, s with
  | [], _ => true
  | x :: p', y :: s' => N.eqb x y && startswith s' p'
  | _ :: _, [] => false
  end.

(** [c.isspace()]: the code points CPython treats as whitespace. *)
Definition isspace (c : N) : bool :=
  ((9 <=? c) && (c <=? 13) || (28 <=? c) && (c <=? 32)
   || (c =? 133) || (c =? 160) || (c =? 5760)
   || (8192 <=? c) && (c <=? 8202)
   || (c =? 8232) || (c =? 8233) || (c =? 8239) || (c =? 8287)
   || (c =? 12288))%N.

(** The code points at which [str.splitlines] breaks a line. *)
Definition islinebreak (c : N) : bool :=
  ((10 <=? c) && (c <=? 13) || (28 <=? c) && (c <=? 30)
   || (c =? 133) || (c =? 8232) || (c =? 8233))%N.

(** [s.split()] with no argument: the maximal runs of non-whitespace
    code points, in order.  [cur] is the run being read, reversed. *)
Fixpoint split_from (cur : str) (s : str) : list str :=
  match s with
  | [] => match cur with [] => [] | _ => [rev cur] end
  | c :: rest =>
      if isspace c then
        match cur with
        | [] => split_from [] rest
        | _ => rev cur :: split_from [] rest
        end
      else split_from (c :: cur) rest
  end.

Definition split (s : str) : list str := split_from [] s.

(** [s.splitlines()]: the lines of [s] without their terminators; a
    carriage return followed by a line feed is one terminator, and a
    terminator at the very end opens no further line. *)
Fixpoint splitlines_from (cur : str) (s : str) : list str :=
  match s with
  | [] => match cur with [] => [] | _ => [rev cur] end
  | c :: rest =>
      if islinebreak c then
        rev cur ::
          match rest with
          | d :: rest' =>
              if ((c =? 13) && (d =? 10))%N
              then splitlines_from [] rest'
              else splitlines_from [] rest
          | [] => splitlines_from [] rest
          end
      else splitlines_from (c :: cur) rest
  end.

Definition splitlines (s : str) : list str := splitlines_from [] s.

End PyStr.
Import PyStr.

(* ================================================================== *)
(** ** Python lists and dictionaries *)

Module PyList.

(** [l[i]] for a Python list: a negative index counts from the end, an
    index out of range has no element ([IndexError]). *)
Definition getitem {A} (l : list A) (i : Z) : option A :=
  let n := Z.of_nat (List.length l) in
  if (0 <=? i) && (i <? n) then nth_error l (Z.to_nat i)
  else if (i <? 0) && (0 <=? i + n) then nth_error l (Z.to_nat (i + n))
  else None.

(** [l[1:]] *)
Definition slice_from_1 {A} (l : list A) : list A := skipn 1 l.

(** A [dict] with [str] keys keeps its items in insertion order;
    [d[k] = v] replaces the value of an existing key in place and
    appends a new key at the end. *)
Definition dict (V : Type) := list (str * V).

Fixpoint setitem {V} (d : dict V) (k : str) (v : V) : dict V :=
  match d with
  | [] => [(k, v)]
  | (k', v') :: d' =>
      if PyStr.eqb k' k then (k', v) :: d' else (k', v') :: setitem d' k v
  end.

Fixpoint lookup {V} (d : dict V) (k : str) : option V :=
  match d with
  | [] => None
  | (k', v') :: d' => if PyStr.eqb k' k then Some v' else lookup d' k
  end.

Definition keys {V} (d : dict V) : list str := List.map fst d.

End PyList.

(* ================================================================== *)
(** ** Values, operations and programs *)

(** A reference to an object owned by an external library (a DMatrix, a
    Booster, a tensor, a figure, an open file...).  The notebooks never
    look inside such an object; they only pass it back to the library. *)
Definition obj := N.

(** The argument values the notebooks build themselves. *)
Inductive pyval : Type :=
| VNone
| VBool (b : bool)
| VInt (z : Z)
| VFloat (f : float)
| VStr (s : str)
| VObj (o : obj)
| VTuple (l : list pyval)
| VList (l : list pyval)
| VDict (d : list (str * pyval))
| VSlice (lo hi : option Z).

(** A scalar: a number or a string, no container and no library object. *)
Definition is_scalar (v : pyval) : bool :=
  match v with
  | VBool _ | VInt _ | VFloat _ | VStr _ => true
  | _ => false
  end.

(** The library entry points the two notebooks call, functions by their
    dotted name and methods by class and method name. *)
Inductive callee : Type :=
(* xgboost notebook *)
| xgb_DMatrix | xgb_train | xgb_plot_tree
| plt_gcf | plt_show | plt_hist | plt_xlabel
| Figure_set_size_inches
| Booster_predict | DMatrix_get_label
| ndarray_sub | ndarray_mean | ndarray_std
| builtin_open
| ct_converters_xgboost_convert
| MLModel_save | ct_models_MLModel | MLModel_predict
(* pytorch notebook *)
| torch_hub_load | torch_nn_Softmax | torch_nn_Sequential | Module_eval
| Module_call
| urllib_request_urlopen | HTTPResponse_read
| PIL_Image_open | Image_resize
| transforms_ToTensor | transforms_Normalize | transforms_Compose
| Compose_call | Tensor_unsqueeze | Tensor_getitem | Tensor_numpy
| Tensor_shape
| torch_no_grad
| np_argsort | np_flip | ndarray_getitem
| torch_rand | torch_jit_trace
| ct_ImageType | ct_ClassifierConfig | ct_convert
| dict_getitem.

(** What a notebook asks of its environment. *)
Inductive op : Type :=
| Import (module : str)
    (** an [import] statement *)
| LibCall (c : callee) (args : list pyval) (kwargs : list (str * pyval))
    (** a call of a library function or method; methods take their
        receiver as first argument *)
| Readlines (f : obj)
    (** [f.readlines()] on an open text file *)
| Decode (b : obj) (encoding : str)
    (** [b.decode(encoding)] on a bytes object *)
| IterInts (a : obj)
    (** iteration over an array of indices *)
| Enter (cm : obj)
    (** entering a [with] block *)
| Exit (cm : obj)
    (** leaving a [with] block; for an open file this closes it.  The
        context managers used here (files, [torch.no_grad()]) never
        swallow an exception, so the operation has no result. *)
| Print (args : list pyval)
| Display (v : pyval)
    (** the notebook showing the value of a cell's last expression *).

(** The type of the answer to each operation. *)
Definition res (o : op) : Type :=
  match o with
  | Import _ => unit
  | LibCall _ _ _ => obj
  | Readlines _ => list str
  | Decode _ _ => str
  | IterInts _ => list Z
  | Enter _ => obj
  | Exit _ => unit
  | Print _ => unit
  | Display _ => unit
  end.

(** Exceptions: the two the notebooks' own statements can raise, and
    whatever an external call raises. *)
Inductive exn : Type :=
| IndexError
| AssertionError
| External (code : N).

(** A program: it returns, raises, or performs an operation and goes on
    from its answer, which is a result or an exception. *)
Inductive prog (A : Type) : Type :=
| Ret (a : A)
| Raise (e : exn)
| Call (o : op) (k : res o + exn -> prog A).

Arguments Ret {A} a.
Arguments Raise {A} e.
Arguments Call {A} o k.

Fixpoint bind {A B} (p : prog A) (f : A -> prog B) : prog B :=
  match p with
  | Ret a => f a
  | Raise e => Raise e
  | Call o k => Call o (fun r => bind (k r) f)
  end.

(** An ordinary Python call: an exception raised by the callee
    propagates. *)
Definition call (o : op) : prog (res o) :=
  Call o (fun r => match r with inl x => Ret x | inr e => Raise e end).

(** [try: p finally: fin] *)
Fixpoint finally {A} (p : prog A) (fin : prog unit) : prog A :=
  match p with
  | Ret a => bind fin (fun _ => Ret a)
  | Raise e => bind fin (fun _ => Raise e)
  | Call o k => Call o (fun r => finally (k r) fin)
  end.

(** [with cm as x: body x] *)
Definition with_ {A} (cm : obj) (body : obj -> prog A) : prog A :=
  bind (call (Enter cm)) (fun x => finally (body x) (call (Exit cm))).

(** [for x in xs: body x] *)
Fixpoint for_each {X} (xs : list X) (body : X -> prog unit) : prog unit :=
  match xs with
  | [] => Ret tt
  | x :: xs' => bind (body x) (fun _ => for_each xs' body)
  end.

(** A pure step that may raise. *)
Definition lift {A} (r : A + exn) : prog A :=
  match r with inl a => Ret a | inr e => Raise e end.

Declare Scope prog_scope.
Delimit Scope prog_scope with prog.
Notation "x <- p ;; q" := (bind p (fun x => q))
  (at level 61, p at next level, right associativity) : prog_scope.
Notation "p ;; q" := (bind p (fun _ => q))
  (at level 61, right associativity) : prog_scope.
Local Open Scope prog_scope.

(** Shorthands for the call forms of the source. *)
Definition libcall (c : callee) (args : list pyval)
    (kwargs : list (str * pyval)) : prog obj :=
  call (LibCall c args kwargs).

(* ------------------------------------------------------------------ *)
(** *** Runs *)

(** One operation as it happened in a run: the request and its answer. *)
Record event : Type := Ev { ev_op : op; ev_res : res ev_op + exn }.

Definition ev_ok (e : event) : bool :=
  match ev_res e with inl _ => true | inr _ => false end.

Inductive outcome (A : Type) : Type :=
| Returned (a : A)
| Raised (e : exn).
Arguments Returned {A} a.
Arguments Raised {A} e.

Definition completed {A} (o : outcome A) : bool :=
  match o with Returned _ => true | Raised _ => false end.

(** An environment is a state and a function that answers an operation
    in a state. *)
Definition handler (W : Type) := W -> forall o : op, (res o + exn) * W.

Fixpoint run {W A} (h : handler W) (p : prog A) (w : W)
  : list event * outcome A * W :=
  match p with
  | Ret a => ([], Returned a, w)
  | Raise e => ([], Raised e, w)
  | Call o k =>
      let '(r, w1) := h w o in
      let '(tr, out, w2) := run h (k r) w1 in
      (Ev o r :: tr, out, w2)
  end.

Definition trace_of {W A} (x : list event * outcome A * W) : list event :=
  fst (fst x).
Definition outcome_of {W A} (x : list event * outcome A * W) : outcome A :=
  snd (fst x).

(* ================================================================== *)
(** ** The XGBoost notebook, cell by cell *)

Module XGBoost.

Definition train_file : str := py "machine.txt.train".
Definition test_file : str := py "machine.txt.test".
Definition featmap_file : str := py "machine.featmap.txt".
Definition artifact : str := py "machine.mlmodel".

(** [import xgboost as xgb; import matplotlib.pyplot as plt] *)
Definition cell_imports : prog unit :=
  call (Import (py "xgboost")) ;;
  call (Import (py "matplotlib.pyplot")).

(** [dtrain = xgb.DMatrix('machine.txt.train')]
    [dtest = xgb.DMatrix('machine.txt.test')] *)
Definition cell_data : prog (obj * obj) :=
  dtrain <- libcall xgb_DMatrix [VStr train_file] [] ;;
  dtest <- libcall xgb_DMatrix [VStr test_file] [] ;;
  Ret (dtrain, dtest).

Definition param : list (str * pyval) :=
  [ (py "objective", VStr (py "reg:squarederror"));
    (py "eta", VStr (py "1.0"));
    (py "gamma", VFloat 1.0);
    (py "min_child_weight", VInt 1);
    (py "max_depth", VInt 3) ].

(** [bst_model = xgb.train(param, dtrain, num_boost_round=2)] *)
Definition cell_train (dtrain : obj) : prog obj :=
  libcall xgb_train [VDict param; VObj dtrain]
          [(py "num_boost_round", VInt 2)].

(** [xgb.plot_tree(bst_model, 'machine.featmap.txt'); fig = plt.gcf();
     fig.set_size_inches(20, 40); plt.show()] *)
Definition cell_plot_tree (bst_model : obj) : prog unit :=
  libcall xgb_plot_tree [VObj bst_model; VStr featmap_file] [] ;;
  fig <- libcall plt_gcf [] [] ;;
  libcall Figure_set_size_inches [VObj fig; VInt 20; VInt 40] [] ;;
  libcall plt_show [] [] ;;
  Ret tt.

(** The accuracy cell: [prediction = bst_model.predict(dtrain)] up to the
    histogram. *)
Definition cell_accuracy (bst_model dtrain : obj) : prog unit :=
  prediction <- libcall Booster_predict [VObj bst_model; VObj dtrain] [] ;;
  actual <- libcall DMatrix_get_label [VObj dtrain] [] ;;
  error <- libcall ndarray_sub [VObj prediction; VObj actual] [] ;;
  mean <- libcall ndarray_mean [VObj error] [] ;;
  std <- libcall ndarray_std [VObj error] [] ;;
  call (Print [VStr (py "mean error:"); VObj mean;
               VStr (py "stdev error:"); VObj std]) ;;
  libcall plt_hist [VObj error] [] ;;
  libcall plt_xlabel [VStr (py "prediction - actual")] [] ;;
  libcall plt_show [] [] ;;
  Ret tt.

(** The body of the feature-name loop:
    [feature_name = line.split()[1]; feature_names.append(feature_name)]
    for each line in turn. *)
Fixpoint feature_names_loop (lines : list str) (feature_names : list str)
  : list str + exn :=
  match lines with
  | [] => inl feature_names
  | line :: rest =>
      match PyList.getitem (split line) 1 with
      | Some feature_name =>
          feature_names_loop rest (feature_names ++ [feature_name])
      | None => inr IndexError
      end
  end.

(** [feature_names = []]
    [with open('machine.featmap.txt') as f:]
    [    for line in f.readlines(): ...]
    [feature_names] *)
Definition cell_feature_names : prog (list str) :=
  cm <- libcall builtin_open [VStr featmap_file] [] ;;
  feature_names <-
    with_ cm (fun f =>
      lines <- call (Readlines f) ;;
      lift (feature_names_loop lines [])) ;;
  call (Display (VList (List.map VStr feature_names))) ;;
  Ret feature_names.

(** [import coremltools as ct]
    [cml_model = ct.converters.xgboost.convert(bst_model,
        feature_names=feature_names, target='perf', mode='regressor')] *)
Definition cell_convert (bst_model : obj) (feature_names : list str)
  : prog obj :=
  call (Import (py "coremltools")) ;;
  libcall ct_converters_xgboost_convert [VObj bst_model]
          [ (py "feature_names", VList (List.map VStr feature_names));
            (py "target", VStr (py "perf"));
            (py "mode", VStr (py "regressor")) ].

(** [cml_model] *)
Definition cell_show (cml_model : obj) : prog unit :=
  call (Display (VObj cml_model)).

(** [cml_model.save('machine.mlmodel')] *)
Definition cell_save (cml_model : obj) : prog unit :=
  libcall MLModel_save [VObj cml_model; VStr artifact] [] ;;
  Ret tt.

Definition example_literal : PyList.dict pyval :=
  [ (py "MYCT", VInt 125);
    (py "MMIN", VInt 256);
    (py "MMAX", VInt 6000);
    (py "CACH", VInt 256);
    (py "CHMIN", VInt 16);
    (py "CHMAX", VInt 128) ].

(** One turn of [for feature_name in feature_names: ...]. *)
Definition example_step (example : PyList.dict pyval) (feature_name : str)
  : PyList.dict pyval :=
  if PyStr.eqb feature_name (py "vendor:ibm") then
    PyList.setitem example feature_name (VInt 1)
  else if startswith feature_name (py "vendor") then
    PyList.setitem example feature_name (VInt 0)
  else example.

Fixpoint example_loop (feature_names : list str)
    (example : PyList.dict pyval) : PyList.dict pyval :=
  match feature_names with
  | [] => example
  | feature_name :: rest =>
      example_loop rest (example_step example feature_name)
  end.

(** The example cell: the literal dict, then the one-hot vendor loop. *)
Definition cell_example (feature_names : list str) : PyList.dict pyval :=
  example_loop feature_names example_literal.

Definition placeholder : str := py "Skipping prediction on non-macOS system".

(** The last cell.  [sys] is a module of the interpreter itself, so
    [import sys] asks nothing of the environment, and [sys.platform] is a
    constant of the run, here the parameter [platform].  The cell's
    value is what it binds [prediction] to. *)
Definition cell_predict (platform : str) (example : PyList.dict pyval)
  : prog pyval :=
  let IS_MACOS := PyStr.eqb platform (py "darwin") in
  if IS_MACOS then
    loaded_model <- libcall ct_models_MLModel [VStr artifact] [] ;;
    prediction <- libcall MLModel_predict
                    [VObj loaded_model; VDict example] [] ;;
    call (Print [VStr (py "prediction:"); VObj prediction]) ;;
    Ret (VObj prediction)
  else
    Ret (VStr placeholder).

(** The whole notebook, cells run top to bottom. *)
Definition notebook (platform : str) : prog pyval :=
  cell_imports ;;
  d <- cell_data ;;
  bst_model <- cell_train (fst d) ;;
  cell_plot_tree bst_model ;;
  cell_accuracy bst_model (fst d) ;;
  feature_names <- cell_feature_names ;;
  cml_model <- cell_convert bst_model feature_names ;;
  cell_show cml_model ;;
  cell_save cml_model ;;
  cell_predict platform (cell_example feature_names).

End XGBoost.

(* ================================================================== *)
(** ** The PyTorch notebook, cell by cell *)

Module PyTorch.

Definition label_url : str :=
  py "https://storage.googleapis.com/download.tensorflow.org/data/ImageNetLabels.txt".
Definition image_file : str := py "Dog.jpg".
Definition artifact : str := py "MobileNet_v2_torch.mlmodel".

Definition input_shape : list Z := [3; 224; 224].

(** The first cell: imports, [input_shape], the model wrapped in a
    softmax, [torch_model.eval();] and the display of [torch_model]. *)
Definition cell_model : prog obj :=
  call (Import (py "tensorflow")) ;;
  call (Import (py "torch")) ;;
  call (Import (py "torchvision")) ;;
  net <- libcall torch_hub_load
           [VStr (py "pytorch/vision:v0.6.0"); VStr (py "mobilenet_v2")]
           [(py "pretrained", VBool true)] ;;
  softmax <- libcall torch_nn_Softmax [] [(py "dim", VInt 1)] ;;
  torch_model <- libcall torch_nn_Sequential [VObj net; VObj softmax] [] ;;
  libcall Module_eval [VObj torch_model] [] ;;
  call (Display (VObj torch_model)) ;;
  Ret torch_model.

(** [class_labels = text.splitlines()]
    [class_labels = class_labels[1:]]
    [assert len(class_labels) == 1000] *)
Definition class_labels_of (text : str) : list str + exn :=
  let class_labels := splitlines text in
  let class_labels := PyList.slice_from_1 class_labels in
  if Nat.eqb (List.length class_labels) 1000 then inl class_labels
  else inr AssertionError.

(** The class-label cell: the list is downloaded, decoded and cut. *)
Definition cell_labels : prog (list str) :=
  call (Import (py "urllib")) ;;
  response <- libcall urllib_request_urlopen [VStr label_url] [] ;;
  body <- libcall HTTPResponse_read [VObj response] [] ;;
  text <- call (Decode body (py "utf-8")) ;;
  lift (class_labels_of text).

(** [img = PIL.Image.open('Dog.jpg').resize(input_shape[1:])]; [img] *)
Definition cell_image : prog obj :=
  call (Import (py "PIL")) ;;
  opened <- libcall PIL_Image_open [VStr image_file] [] ;;
  img <- libcall Image_resize
           [VObj opened;
            VTuple (List.map VInt (PyList.slice_from_1 input_shape))] [] ;;
  call (Display (VObj img)) ;;
  Ret img.

(** One turn of [for i in top_5_indices: print(class_labels[i], out[i])]. *)
Definition print_top (class_labels : list str) (out : obj) (i : Z)
  : prog unit :=
  match PyList.getitem class_labels i with
  | Some label =>
      score <- libcall ndarray_getitem [VObj out; VInt i] [] ;;
      call (Print [VStr label; VObj score])
  | None => Raise IndexError
  end.

(** The cell that runs the PyTorch model on the image. *)
Definition cell_test (torch_model img : obj) (class_labels : list str)
  : prog unit :=
  call (Import (py "numpy")) ;;
  call (Import (py "torchvision.transforms")) ;;
  to_tensor <- libcall transforms_ToTensor [] [] ;;
  normalize <- libcall transforms_Normalize []
     [ (py "mean", VTuple [VFloat 0.485; VFloat 0.456; VFloat 0.406]);
       (py "std", VTuple [VFloat 0.229; VFloat 0.224; VFloat 0.225]) ] ;;
  preprocess <- libcall transforms_Compose
                  [VList [VObj to_tensor; VObj normalize]] [] ;;
  input_tensor <- libcall Compose_call [VObj preprocess; VObj img] [] ;;
  input_batch <- libcall Tensor_unsqueeze [VObj input_tensor; VInt 0] [] ;;
  no_grad <- libcall torch_no_grad [] [] ;;
  out <- with_ no_grad (fun _ =>
           y <- libcall Module_call [VObj torch_model; VObj input_batch] [] ;;
           y0 <- libcall Tensor_getitem [VObj y; VInt 0] [] ;;
           libcall Tensor_numpy [VObj y0] []) ;;
  order <- libcall np_argsort [VObj out] [] ;;
  flipped <- libcall np_flip [VObj order] [] ;;
  top_5_indices <- libcall ndarray_getitem
                     [VObj flipped; VSlice None (Some 5)] [] ;;
  indices <- call (IterInts top_5_indices) ;;
  for_each indices (print_top class_labels out).

(** The conversion cell. *)
Definition cell_convert (torch_model : obj) (class_labels : list str)
  : prog obj :=
  call (Import (py "coremltools")) ;;
  example_input <- libcall torch_rand
                     (VInt 1 :: List.map VInt input_shape) [] ;;
  traced_model <- libcall torch_jit_trace
                    [VObj torch_model; VObj example_input] [] ;;
  shape <- libcall Tensor_shape [VObj example_input] [] ;;
  image_type <- libcall ct_ImageType []
     [ (py "color_layout", VStr (py "RGB"));
       (py "scale", VFloat (1.0 / 255.0 / 0.226));
       (py "bias", VTuple [ VFloat (-0.485 / 0.226);
                            VFloat (-0.456 / 0.226);
                            VFloat (-0.406 / 0.226) ]);
       (py "shape", VObj shape) ] ;;
  config <- libcall ct_ClassifierConfig
              [VList (List.map VStr class_labels)] [] ;;
  libcall ct_convert [VObj traced_model]
          [ (py "inputs", VList [VObj image_type]);
            (py "classifier_config", VObj config) ].

(** [cml_model] *)
Definition cell_show (cml_model : obj) : prog unit :=
  call (Display (VObj cml_model)).

(** [cml_model.save('MobileNet_v2_torch.mlmodel')] *)
Definition cell_save (cml_model : obj) : prog unit :=
  libcall MLModel_save [VObj cml_model; VStr artifact] [] ;;
  Ret tt.

Definition placeholder : str := py "Skipping prediction on non-macOS system".

(** The last cell, with [sys.platform] as the parameter [platform]; its
    value is what it binds [prediction] to. *)
Definition cell_predict (platform : str) (img : obj) : prog pyval :=
  let IS_MACOS := PyStr.eqb platform (py "darwin") in
  if IS_MACOS then
    loaded_model <- libcall ct_models_MLModel [VStr artifact] [] ;;
    prediction <- libcall MLModel_predict
                    [VObj loaded_model; VDict [(py "input.1", VObj img)]] [] ;;
    top <- libcall dict_getitem
             [VObj prediction; VStr (py "classLabel")] [] ;;
    call (Print [VStr (py "top prediction:"); VObj top]) ;;
    Ret (VObj prediction)
  else
    Ret (VStr placeholder).

(** The whole notebook, cells run top to bottom. *)
Definition notebook (platform : str) : prog pyval :=
  torch_model <- cell_model ;;
  class_labels <- cell_labels ;;
  img <- cell_image ;;
  cell_test torch_model img class_labels ;;
  cml_model <- cell_convert torch_model class_labels ;;
  cell_show cml_model ;;
  cell_save cml_model ;;
  cell_predict platform img.

End PyTorch.

(* ================================================================== *)
(** ** What a run touches *)

Module Effects.

(** The files of the working directory an operation opens for reading,
    by the name given in the notebook.  What [torch.hub.load] keeps in
    its cache lies outside the working directory and is counted with the
    network, below. *)
Definition files_read (o : op) : list str :=
  match o with
  | LibCall xgb_DMatrix [VStr p] _ => [p]
  | LibCall xgb_plot_tree [_; VStr p] _ => [p]
  | LibCall builtin_open [VStr p] _ => [p]
  | LibCall PIL_Image_open [VStr p] _ => [p]
  | LibCall ct_models_MLModel [VStr p] _ => [p]
  | _ => []
  end.

(** The files of the working directory an operation creates or
    overwrites. *)
Definition files_written (o : op) : list str :=
  match o with
  | LibCall MLModel_save [_; VStr p] _ => [p]
  | _ => []
  end.

(** What an operation fetches over the network: a URL that the notebook
    opens itself, or a repository and a model of it that
    [torch.hub.load] downloads (and, with [pretrained=True], the
    weights), unless its cache already holds them. *)
Inductive remote : Type :=
| Url (u : str)
| HubModel (repo model : str).

Definition fetched (o : op) : list remote :=
  match o with
  | LibCall urllib_request_urlopen [VStr u] _ => [Url u]
  | LibCall torch_hub_load [VStr repo; VStr model] _ => [HubModel repo model]
  | _ => []
  end.

Definition reads (tr : list event) : list str :=
  flat_map (fun e => files_read (ev_op e)) tr.
Definition writes (tr : list event) : list str :=
  flat_map (fun e => files_written (ev_op e)) tr.
Definition fetches (tr : list event) : list remote :=
  flat_map (fun e => fetched (ev_op e)) tr.

(** The distinct names of a list, each at its first occurrence. *)
Fixpoint distinct (seen : list str) (l : list str) : list str :=
  match l with
  | [] => []
  | x :: l' =>
      if existsb (PyStr.eqb x) seen then distinct seen l'
      else x :: distinct (x :: seen) l'
  end.

End Effects.

(* ================================================================== *)
(** ** Failure and the order of the pipeline steps *)

Module Pipeline.

Definition ev_exn (e : event) : option exn :=
  match ev_res e with inl _ => None | inr x => Some x end.

Definition is_exit (e : event) : bool :=
  match ev_op e with Exit _ => true | _ => false end.

(** The exception of the last failed operation of a trace. *)
Fixpoint last_failure (tr : list event) : option exn :=
  match tr with
  | [] => None
  | e :: tr' =>
      match last_failure tr' with
      | Some x => Some x
      | None => ev_exn e
      end
  end.


Inductive stage : Type :=
| LoadData | BuildModel | Convert | Save | Reload | Predict.

Definition stage_eqb (a b : stage) : bool :=
  match a, b with
  | LoadData, LoadData | BuildModel, BuildModel | Convert, Convert
  | Save, Save | Reload, Reload | Predict, Predict => true
  | _, _ => false
  end.

(** The pipeline step an operation belongs to, if any. *)
Definition stage_of (o : op) : option stage :=
  match o with
  | LibCall c _ _ =>
      match c with
      | xgb_DMatrix | urllib_request_urlopen | PIL_Image_open =>
          Some LoadData
      | xgb_train | torch_hub_load | torch_nn_Sequential => Some BuildModel
      | ct_converters_xgboost_convert | ct_convert => Some Convert
      | MLModel_save => Some Save
      | ct_models_MLModel => Some Reload
      | MLModel_predict => Some Predict
      | _ => None
      end
  | _ => None
  end.

(** The position of each step in the order the specification gives, and
    in the order of the PyTorch notebook, which builds its model first. *)
Definition rank_spec (s : stage) : nat :=
  match s with
  | LoadData => 0 | BuildModel => 1 | Convert => 2
  | Save => 3 | Reload => 4 | Predict => 5
  end%nat.

Definition rank_torch (s : stage) : nat :=
  match s with
  | BuildModel => 0 | LoadData => 1 | Convert => 2
  | Save => 3 | Reload => 4 | Predict => 5
  end%nat.

(** A successful operation of step [s]. *)
Definition done_step (s : stage) (e : event) : bool :=
  ev_ok e &&
  match stage_of (ev_op e) with Some s' => stage_eqb s s' | None => false end.

(** A trace is in order for a ranking when every operation of a step
    comes after a successful operation of every step ranked before it. *)
Definition in_order (rank : stage -> nat) (tr : list event) : Prop :=
  forall tr1 e tr2 s s',
    tr = tr1 ++ e :: tr2 ->
    stage_of (ev_op e) = Some s ->
    (rank s' < rank s)%nat ->
    exists e', In e' tr1 /\ done_step s' e' = true.

(** The same as a monitor that reads the trace once: its state is the
    number of leading steps of the ranking that have succeeded. *)
Definition monitor_step (rank : stage -> nat) (n : nat) (e : event)
  : option nat :=
  match stage_of (ev_op e) with
  | None => Some n
  | Some s =>
      if (rank s <=? n)%nat then
        Some (if ev_ok e && (rank s =? n)%nat then S n else n)
      else None
  end.

Fixpoint monitor (rank : stage -> nat) (n : nat) (tr : list event)
  : option nat :=
  match tr with
  | [] => Some n
  | e :: tr' =>
      match monitor_step rank n e with
      | Some n' => monitor rank n' tr'
      | None => None
      end
  end.

End Pipeline.

(* ================================================================== *)
(** ** All runs of a program *)

(** [all_runs p Q]: whatever the environment answers, the trace and the
    outcome of [p] satisfy [Q]. *)
Fixpoint all_runs {A} (p : prog A) (Q : list event -> outcome A -> Prop)
  : Prop :=
  match p with
  | Ret a => Q [] (Returned a)
  | Raise e => Q [] (Raised e)
  | Call o k => forall r, all_runs (k r) (fun tr out => Q (Ev o r :: tr) out)
  end.

(* ================================================================== *)
(** ** A concrete environment *)

Module Demo.

(** A working directory (the names of its files), a counter that names
    the objects the libraries hand out, and the data the outside world
    supplies: the lines of the feature-map file, the text behind the
    label URL, and the indices of the five best classes. *)
Record world : Type := World {
  files : list str;
  next_obj : N;
  featmap_lines : list str;
  label_text : str;
  top_indices : list Z
}.

Definition present (w : world) (p : str) : bool :=
  existsb (PyStr.eqb p) (files w).

Definition fresh (w : world) : (obj + exn) * world :=
  (inl (next_obj w),
   World (files w) (N.succ (next_obj w)) (featmap_lines w) (label_text w)
         (top_indices w)).

Definition create (w : world) (ps : list str) : world :=
  World (ps ++ files w) (next_obj w) (featmap_lines w) (label_text w)
        (top_indices w).

(** Reading a file that is not there fails; writing creates the file;
    everything else succeeds. *)
Definition handle : handler world := fun w o =>
  match o as o' return (res o' + exn) * world with
  | Import _ => (inl tt, w)
  | LibCall c args kwargs =>
      let o' := LibCall c args kwargs in
      if forallb (present w) (Effects.files_read o')
      then fresh (create w (Effects.files_written o'))
      else (inr (External 2), w)
  | Readlines _ => (inl (featmap_lines w), w)
  | Decode _ _ => (inl (label_text w), w)
  | IterInts _ => (inl (top_indices w), w)
  | Enter cm => (inl cm, w)
  | Exit _ => (inl tt, w)
  | Print _ => (inl tt, w)
  | Display _ => (inl tt, w)
  end.

Definition newline : str := [10%N].

(** A feature map in the format of the XGBoost demo: index, name, type. *)
Definition featmap : list str :=
  [ py "0 vendor:hp i" ++ newline;
    py "1 vendor:ibm i" ++ newline;
    py "2 MYCT int" ++ newline;
    py "3 MMIN int" ++ newline;
    py "4 MMAX int" ++ newline;
    py "5 CACH int" ++ newline;
    py "6 CHMIN int" ++ newline;
    py "7 CHMAX int" ++ newline ].

(** A label text of 1001 lines: the background line and 1000 classes. *)
Definition labels : str :=
  py "background" ++ newline
  ++ List.concat (List.repeat (py "tench" ++ newline) 1000).

Definition start : world :=
  World [XGBoost.train_file; XGBoost.test_file; XGBoost.featmap_file;
         PyTorch.image_file]
        0 featmap labels [258; 259; 261; 270; 279].

(** The same directory without the feature-map file. *)
Definition start_without_featmap : world :=
  World [XGBoost.train_file; XGBoost.test_file; PyTorch.image_file]
        0 featmap labels [258; 259; 261; 270; 279].

Definition linux : str := py "linux".
Definition darwin : str := py "darwin".

End Demo.
(* ================================================================== *)
(** ** Reading a trace *)

(** The entry point an event calls, when it is a library call. *)
Definition callee_of (e : event) : option callee :=
  match ev_op e with LibCall c _ _ => Some c | _ => None end.

(** The object a successful library call returned. *)
Definition obj_returned (e : event) : option obj :=
  match e with
  | Ev (LibCall _ _ _) (inl x) => Some x
  | _ => None
  end.

(** The lines a successful [readlines] returned. *)
Definition lines_read (e : event) : option (list str) :=
  match e with
  | Ev (Readlines _) (inl lines) => Some lines
  | _ => None
  end.

(** The text a successful [decode] returned. *)
Definition text_decoded (e : event) : option str :=
  match e with
  | Ev (Decode _ _) (inl text) => Some text
  | _ => None
  end.

(** The events of the top-five loop of the PyTorch notebook: an element
    read and a [print]. *)
Definition is_report (e : event) : bool :=
  match ev_op e with
  | LibCall ndarray_getitem _ _ | Print _ => true
  | _ => false
  end.

(** The second whitespace-separated token of a line. *)
Definition second_token (line : str) : str := nth 1 (split line) [].

Definition two_tokens (line : str) : Prop :=
  (2 <= List.length (split line))%nat.

(** A stretch of successful events of the top-five loop. *)
Definition reported (tr : list event) : Prop :=
  Forall (fun e => is_report e = true /\ ev_ok e = true) tr.

(** Every name of [l] is one of [allowed]. *)
Definition subset (l allowed : list str) : bool :=
  forallb (fun x => existsb (PyStr.eqb x) allowed) l.

(** The names that count on macOS only. *)
Definition on_macos (platform : str) (names : list str) : list str :=
  if PyStr.eqb platform (py "darwin") then names else [].

(** The input files of each notebook. *)
Definition xgboost_inputs : list str :=
  [XGBoost.train_file; XGBoost.test_file; XGBoost.featmap_file].

Definition pytorch_inputs : list str := [PyTorch.image_file].

(** What the PyTorch notebook fetches over the network, in order. *)
Definition pytorch_remotes : list Effects.remote :=
  [ Effects.HubModel (py "pytorch/vision:v0.6.0") (py "mobilenet_v2");
    Effects.Url PyTorch.label_url ].


(** The vendor keys of the example dictionary. *)
Definition vendor : str := py "vendor".
Definition vendor_ibm : str := py "vendor:ibm".

(** What the loop may leave under a vendor key. *)
Definition one_hot (k : str) : pyval :=
  if PyStr.eqb k vendor_ibm then VInt 1 else VInt 0.

Definition vendor_ok (d : PyList.dict pyval) : Prop :=
  forall k v, PyList.lookup d k = Some v -> startswith k vendor = true ->
              v = one_hot k.


(** The two operations of the prediction step. *)
Definition is_reload (e : event) : bool :=
  match callee_of e with Some ct_models_MLModel => true | _ => false end.

Definition is_coreml_predict (e : event) : bool :=
  match callee_of e with Some MLModel_predict => true | _ => false end.

(** The shape of the prediction step on macOS: its first operation loads
    the model from [artifact]; when that returns a model, the next
    operation is the predict call on that model with [input]; when it
    fails, nothing follows. *)
Definition reloads_then_predicts (artifact : str) (input : pyval)
    (tr : list event) : Prop :=
  exists e1 rest,
    tr = e1 :: rest /\
    ev_op e1 = LibCall ct_models_MLModel [VStr artifact] [] /\
    match obj_returned e1 with
    | Some loaded_model =>
        exists e2 rest',
          rest = e2 :: rest' /\
          ev_op e2 = LibCall MLModel_predict [VObj loaded_model; input] []
    | None => rest = []
    end.

Definition no_prediction (e : event) : bool :=
  negb (is_reload e) && negb (is_coreml_predict e).

Definition done_call (test : event -> bool) (e : event) : bool :=
  test e && ev_ok e.

(* ================================================================== *)
(** ** Further observations on traces and values *)

(** A token: not empty, and free of whitespace. *)
Definition is_token (s : str) : Prop :=
  s <> [] /\ existsb isspace s = false.

(** The keys the example dictionary starts with. *)
Definition literal_keys : list str := PyList.keys XGBoost.example_literal.

(** The positional and the keyword arguments of a library call. *)
Definition args_of (e : event) : list pyval :=
  match ev_op e with LibCall _ args _ => args | _ => [] end.

Definition kwargs_of (e : event) : list (str * pyval) :=
  match ev_op e with LibCall _ _ kwargs => kwargs | _ => [] end.

(** [x] is what a successful operation [o] of the trace returned. *)
Definition produced (o : op) (x : obj) (tr : list event) : Prop :=
  exists e, In e tr /\ ev_op e = o /\ obj_returned e = Some x.

(** [x] is what a successful call of [c] in the trace returned. *)
Definition returned_by (c : callee) (x : obj) (tr : list event) : Prop :=
  exists e, In e tr /\ callee_of e = Some c /\ obj_returned e = Some x.

(** The trace holds a conversion call with feature names [names]. *)
Definition converted_with (names : list str) (tr : list event) : Prop :=
  exists e, In e tr /\
    callee_of e = Some ct_converters_xgboost_convert /\
    PyList.lookup (kwargs_of e) (py "feature_names")
      = Some (VList (List.map VStr names)).

(** Where each object an XGBoost call receives comes from. *)
Definition xgboost_flow (c : callee) (e : event) (tr : list event) : Prop :=
  let dtrain_of := produced (LibCall xgb_DMatrix [VStr XGBoost.train_file] []) in
  match c with
  | xgb_train =>
      exists d, dtrain_of d tr /\
        ev_op e = LibCall xgb_train [VDict XGBoost.param; VObj d]
                          [(py "num_boost_round", VInt 2)]
  | Booster_predict =>
      exists b d, returned_by xgb_train b tr /\ dtrain_of d tr /\
        ev_op e = LibCall Booster_predict [VObj b; VObj d] []
  | DMatrix_get_label =>
      exists d, dtrain_of d tr /\
        ev_op e = LibCall DMatrix_get_label [VObj d] []
  | xgb_plot_tree =>
      exists b, returned_by xgb_train b tr /\
        ev_op e = LibCall xgb_plot_tree
                          [VObj b; VStr XGBoost.featmap_file] []
  | ct_converters_xgboost_convert =>
      exists b, returned_by xgb_train b tr /\ args_of e = [VObj b]
  | MLModel_save =>
      exists m, returned_by ct_converters_xgboost_convert m tr /\
        ev_op e = LibCall MLModel_save [VObj m; VStr XGBoost.artifact] []
  | MLModel_predict =>
      exists m names, returned_by ct_models_MLModel m tr /\
        converted_with names tr /\
        ev_op e = LibCall MLModel_predict
                          [VObj m; VDict (XGBoost.cell_example names)] []
  | _ => True
  end.

(** The context managers an event enters, and those it leaves. *)
Definition entered_of (e : event) : list obj :=
  match e with
  | Ev (Enter cm) (inl _) => [cm]
  | _ => []
  end.

Definition exited_of (e : event) : list obj :=
  match ev_op e with Exit cm => [cm] | _ => [] end.

(** The context manager an event creates: an open file, a
    [torch.no_grad()]. *)
Definition made_of (e : event) : list obj :=
  match e with
  | Ev (LibCall builtin_open _ _) (inl x) => [x]
  | Ev (LibCall torch_no_grad _ _) (inl x) => [x]
  | _ => []
  end.

Definition entered (tr : list event) : list obj := flat_map entered_of tr.
Definition exited (tr : list event) : list obj := flat_map exited_of tr.
Definition made (tr : list event) : list obj := flat_map made_of tr.

(** The label list that the trace downloaded and cut. *)
Definition labels_decoded (labels : list str) (tr : list event) : Prop :=
  exists e, In e tr /\
    option_map PyTorch.class_labels_of (text_decoded e) = Some (inl labels).

(** Where each object a PyTorch call receives comes from. *)
Definition pytorch_flow (c : callee) (e : event) (tr : list event) : Prop :=
  match c with
  | torch_nn_Sequential =>
      exists net softmax,
        returned_by torch_hub_load net tr /\
        returned_by torch_nn_Softmax softmax tr /\
        ev_op e = LibCall torch_nn_Sequential [VObj net; VObj softmax] []
  | Module_eval =>
      exists t, returned_by torch_nn_Sequential t tr /\
        ev_op e = LibCall Module_eval [VObj t] []
  | Module_call =>
      exists t batch,
        returned_by torch_nn_Sequential t tr /\
        returned_by Tensor_unsqueeze batch tr /\
        ev_op e = LibCall Module_call [VObj t; VObj batch] []
  | torch_jit_trace =>
      exists t x,
        returned_by torch_nn_Sequential t tr /\
        returned_by torch_rand x tr /\
        ev_op e = LibCall torch_jit_trace [VObj t; VObj x] []
  | ct_convert =>
      exists traced image_type config,
        returned_by torch_jit_trace traced tr /\
        returned_by ct_ImageType image_type tr /\
        returned_by ct_ClassifierConfig config tr /\
        ev_op e = LibCall ct_convert [VObj traced]
                    [ (py "inputs", VList [VObj image_type]);
                      (py "classifier_config", VObj config) ]
  | MLModel_save =>
      exists m, returned_by ct_convert m tr /\
        ev_op e = LibCall MLModel_save [VObj m; VStr PyTorch.artifact] []
  | Image_resize =>
      exists opened, returned_by PIL_Image_open opened tr /\
        ev_op e = LibCall Image_resize
                    [VObj opened; VTuple [VInt 224; VInt 224]] []
  | Compose_call =>
      exists preprocess img,
        returned_by transforms_Compose preprocess tr /\
        returned_by Image_resize img tr /\
        ev_op e = LibCall Compose_call [VObj preprocess; VObj img] []
  | MLModel_predict =>
      exists m img,
        returned_by ct_models_MLModel m tr /\
        returned_by Image_resize img tr /\
        ev_op e = LibCall MLModel_predict
                    [VObj m; VDict [(py "input.1", VObj img)]] []
  | ct_ClassifierConfig =>
      exists labels, labels_decoded labels tr /\
        ev_op e = LibCall ct_ClassifierConfig
                    [VList (List.map VStr labels)] []
  | _ => True
  end.


(** What the top-five loop prints first for index [i]. *)
Definition label_at (labels : list str) (i : Z) : list pyval :=
  match PyList.getitem labels i with Some l => [VStr l] | None => [] end.

Definition in_range (labels : list str) (i : Z) : Prop :=
  PyList.getitem labels i <> None.

(** Two more working directories: one whose label text has a single
    line, one whose feature map holds a blank line. *)
Definition world_short_labels : Demo.world :=
  Demo.World (Demo.files Demo.start) 0 Demo.featmap (py "background")
             [258; 259; 261; 270; 279].

Definition world_blank_line : Demo.world :=
  Demo.World (Demo.files Demo.start) 0
             [py "0 vendor:hp i" ++ Demo.newline; Demo.newline]
             Demo.labels [258; 259; 261; 270; 279].


(** A conversion call of the XGBoost notebook. *)
Definition is_xgboost_convert (e : event) : bool :=
  match callee_of e with
  | Some ct_converters_xgboost_convert => true
  | _ => false
  end.


(** One operation of the pipeline: its step, the entry point called, and
    the files of the working directory it reads or writes. *)
Definition pipeline_op : Type := (Pipeline.stage * callee * list str)%type.

(** The pipeline operation an event performs, with its success. *)
Definition step_of (e : event) : list (pipeline_op * bool) :=
  match ev_op e with
  | LibCall c args kwargs =>
      let o := LibCall c args kwargs in
      match Pipeline.stage_of o with
      | Some s =>
          [((s, c, Effects.files_read o ++ Effects.files_written o),
            ev_ok e)]
      | None => []
      end
  | _ => []
  end.

(** The pipeline operations of a trace, in the order they happened. *)
Definition steps (tr : list event) : list (pipeline_op * bool) :=
  flat_map step_of tr.

(** The pipeline of each notebook, step by step. *)
Definition xgboost_pipeline (platform : str) : list pipeline_op :=
  [ (Pipeline.LoadData, xgb_DMatrix, [XGBoost.train_file]);
    (Pipeline.LoadData, xgb_DMatrix, [XGBoost.test_file]);
    (Pipeline.BuildModel, xgb_train, []);
    (Pipeline.Convert, ct_converters_xgboost_convert, []);
    (Pipeline.Save, MLModel_save, [XGBoost.artifact]) ]
  ++ (if PyStr.eqb platform (py "darwin")
      then [ (Pipeline.Reload, ct_models_MLModel, [XGBoost.artifact]);
             (Pipeline.Predict, MLModel_predict, []) ]
      else []).

Definition pytorch_pipeline (platform : str) : list pipeline_op :=
  [ (Pipeline.BuildModel, torch_hub_load, []);
    (Pipeline.BuildModel, torch_nn_Sequential, []);
    (Pipeline.LoadData, urllib_request_urlopen, []);
    (Pipeline.LoadData, PIL_Image_open, [PyTorch.image_file]);
    (Pipeline.Convert, ct_convert, []);
    (Pipeline.Save, MLModel_save, [PyTorch.artifact]) ]
  ++ (if PyStr.eqb platform (py "darwin")
      then [ (Pipeline.Reload, ct_models_MLModel, [PyTorch.artifact]);
             (Pipeline.Predict, MLModel_predict, []) ]
      else []).

(** A run follows a pipeline when its pipeline operations are a leading
    part of it, in the same order, every one but the last has
    succeeded, and a run that completes has performed all of it with
    success. *)
Definition follows_pipeline {A} (full : list pipeline_op)
    (tr : list event) (out : outcome A) : Prop :=
  (exists rest, List.map fst (steps tr) ++ rest = full) /\
  forallb snd (removelast (steps tr)) = true /\
  (completed out = true ->
     List.map fst (steps tr) = full /\ forallb snd (steps tr) = true).

(** Every reload of a model reads [artifact], and a save that succeeded
    in writing [artifact] comes before it. *)
Definition reload_follows_save (artifact : str) (tr : list event) : Prop :=
  forall tr1 e tr2,
    tr = tr1 ++ e :: tr2 ->
    callee_of e = Some ct_models_MLModel ->
    Effects.files_read (ev_op e) = [artifact] /\
    exists e', In e' tr1 /\ callee_of e' = Some MLModel_save /\
               ev_ok e' = true /\
               Effects.files_written (ev_op e') = [artifact].

(** The runs of the top-five loop, index by index: the loop ends with its
    indices; an index without a label raises [IndexError] before
    anything is asked of the environment; otherwise the score is read,
    then label and score are printed, and a failure of either ends the
    loop. *)
Inductive loop_run (labels : list str) (out : obj)
  : list Z -> list event -> outcome unit -> Prop :=
| loop_end :
    loop_run labels out [] [] (Returned tt)
| loop_no_label i idxs :
    PyList.getitem labels i = None ->
    loop_run labels out (i :: idxs) [] (Raised IndexError)
| loop_read_fails i idxs label x :
    PyList.getitem labels i = Some label ->
    loop_run labels out (i :: idxs)
      [Ev (LibCall ndarray_getitem [VObj out; VInt i] []) (inr x)]
      (Raised x)
| loop_print_fails i idxs label score x :
    PyList.getitem labels i = Some label ->
    loop_run labels out (i :: idxs)
      [Ev (LibCall ndarray_getitem [VObj out; VInt i] []) (inl score);
       Ev (Print [VStr label; VObj score]) (inr x)]
      (Raised x)
| loop_next i idxs label score tr o :
    PyList.getitem labels i = Some label ->
    loop_run labels out idxs tr o ->
    loop_run labels out (i :: idxs)
      (Ev (LibCall ndarray_getitem [VObj out; VInt i] []) (inl score)
       :: Ev (Print [VStr label; VObj score]) (inl tt) :: tr)
      o.

(** The first value of each [print] that succeeded. *)
Definition shown_of (e : event) : list pyval :=
  match e with
  | Ev (Print (v :: _)) (inl _) => [v]
  | _ => []
  end.

Definition shown (tr : list event) : list pyval := flat_map shown_of tr.

(** The indices at which an element read was asked for. *)
Definition score_read_of (e : event) : list Z :=
  match ev_op e with
  | LibCall ndarray_getitem [_; VInt i] _ => [i]
  | _ => []
  end.

Definition score_reads (tr : list event) : list Z :=
  flat_map score_read_of tr.

(** The context managers an event asks to enter. *)
Definition entering_of (e : event) : list obj :=
  match ev_op e with Enter cm => [cm] | _ => [] end.

Definition entering (tr : list event) : list obj :=
  flat_map entering_of tr.

(** The calls the PyTorch notebook makes inside [with torch.no_grad()]. *)
Definition inference_call (c : callee) : bool :=
  match c with
  | Module_call | Tensor_getitem | Tensor_numpy => true
  | _ => false
  end.

(** The [with] blocks of a trace are well nested.  [stack] holds the
    blocks that are open, innermost first, each with the value its
    [with ... as] bound.  An exit must leave the innermost open block;
    [readlines] must be called on the value the innermost block bound;
    an inference call must happen inside some block; and no block may
    be open when the trace ends. *)
Fixpoint bracketed (stack : list (obj * obj)) (tr : list event) : bool :=
  match tr with
  | [] => match stack with [] => true | _ :: _ => false end
  | e :: tr' =>
      match e with
      | Ev (Enter cm) (inl f) => bracketed ((cm, f) :: stack) tr'
      | Ev (Exit cm) _ =>
          match stack with
          | (cm', _) :: rest => N.eqb cm cm' && bracketed rest tr'
          | [] => false
          end
      | Ev (Readlines f) _ =>
          match stack with
          | (_, f') :: _ => N.eqb f f' && bracketed stack tr'
          | [] => false
          end
      | Ev (LibCall c _ _) _ =>
          if inference_call c then
            match stack with
            | _ :: _ => bracketed stack tr'
            | [] => false
            end
          else bracketed stack tr'
      | _ => bracketed stack tr'
      end
  end.

(** What holds of the [with] blocks of a run. *)
Definition with_blocks_kept (tr : list event) : Prop :=
  bracketed [] tr = true /\
  entering tr = made tr /\
  exited tr = entered tr.


(** The run stopped at the assertion of the label cell: [e], the decoding
    of the downloaded text, is the last event; the model and the labels
    have been fetched; the two model-building calls and the label
    download are the only pipeline operations; no file of the working
    directory has been read or written. *)
Definition label_cell_stop {A} (e : event) (tr : list event)
    (out : outcome A) : Prop :=
  out = Raised AssertionError /\
  (exists tr0, tr = tr0 ++ [e]) /\
  steps tr
    = [ ((Pipeline.BuildModel, torch_hub_load, []), true);
        ((Pipeline.BuildModel, torch_nn_Sequential, []), true);
        ((Pipeline.LoadData, urllib_request_urlopen, []), true) ] /\
  Effects.fetches tr
    = [ Effects.HubModel (py "pytorch/vision:v0.6.0") (py "mobilenet_v2");
        Effects.Url PyTorch.label_url ] /\
  Effects.reads tr = [] /\
  Effects.writes tr = [].


(* ================================================================== *)
(** ** Facts about the builtins *)

Module PyStrFacts.

Lemma eqb_eq (a b : str) : PyStr.eqb a b = true <-> a = b.
Proof.
  revert b; induction a as [|x a IH]; intros [|y b]; simpl;
    try (split; congruence).
  rewrite andb_true_iff, N.eqb_eq, IH. split.
  - intros [-> ->]; reflexivity.
  - intros H; inversion H; auto.
Qed.

Lemma eqb_refl (a : str) : PyStr.eqb a a = true.
Proof. apply eqb_eq; reflexivity. Qed.

Lemma eqb_neq (a b : str) : PyStr.eqb a b = false <-> a <> b.
Proof.
  rewrite <- eqb_eq. destruct (PyStr.eqb a b); split; congruence.
Qed.

End PyStrFacts.

Example split_demo :
  split (py "  6 vendor:ibm   i ") = [py "6"; py "vendor:ibm"; py "i"].
Proof. reflexivity. Qed.

Example splitlines_demo :
  splitlines (List.map N_of_ascii
                ["a"; "013"; "010"; "010"; "b"; "013"; "c"; "010"]%char)
  = [py "a"; py ""; py "b"; py "c"].
Proof. reflexivity. Qed.

Module PyListFacts.
Import PyList.

Lemma lookup_setitem_same {V} (d : dict V) k v :
  lookup (setitem d k v) k = Some v.
Proof.
  induction d as [|[k' v'] d IH]; simpl.
  - now rewrite PyStrFacts.eqb_refl.
  - destruct (PyStr.eqb k' k) eqn:E; simpl; now rewrite E.
Qed.

Lemma lookup_setitem_other {V} (d : dict V) k v k0 :
  k0 <> k -> lookup (setitem d k v) k0 = lookup d k0.
Proof.
  intros Hne. induction d as [|[k' v'] d IH]; simpl.
  - destruct (PyStr.eqb k k0) eqn:E; auto.
    apply PyStrFacts.eqb_eq in E; congruence.
  - destruct (PyStr.eqb k' k) eqn:E; simpl.
    + apply PyStrFacts.eqb_eq in E; subst k'.
      destruct (PyStr.eqb k k0) eqn:E0; auto.
      apply PyStrFacts.eqb_eq in E0; congruence.
    + destruct (PyStr.eqb k' k0); auto.
Qed.

End PyListFacts.

(* ================================================================== *)
(** ** Facts about programs and runs *)

(** The runs of [bind p f] are the runs of [p] followed, when [p]
    returns, by the runs of [f]. *)
Lemma all_runs_bind {A B} (p : prog A) (f : A -> prog B)
    (Q : list event -> outcome B -> Prop) :
  all_runs p (fun tr out =>
    match out with
    | Returned a => all_runs (f a) (fun tr' out' => Q (tr ++ tr') out')
    | Raised e => Q tr (Raised e)
    end) ->
  all_runs (bind p f) Q.
Proof.
  revert Q. induction p as [a|e|o k IH]; simpl; intros Q Hp;
    [exact Hp | exact Hp | intros r; apply IH; apply Hp].
Qed.

Section RunFacts.
Context {W : Type} (h : handler W).

Lemma all_runs_sound {A} (p : prog A) (Q : list event -> outcome A -> Prop) :
  all_runs p Q ->
  forall w, Q (trace_of (run h p w)) (outcome_of (run h p w)).
Proof.
  revert Q. induction p as [a|e|o k IH]; simpl; intros Q Hp w;
    [exact Hp | exact Hp |].
  destruct (h w o) as [r w1].
  specialize (IH r _ (Hp r) w1).
  destruct (run h (k r) w1) as [[tr out] w2]. exact IH.
Qed.

End RunFacts.

(** Stepping through a program: expose the next operation, split on its
    answer, and on the tests the notebooks make. *)
Ltac step_cbn :=
  cbn [all_runs bind call libcall with_ finally lift res fst snd].

Ltac wp_step :=
  lazymatch goal with
  | |- forall r : _ + exn, _ => intros [?x|?e]; step_cbn
  | |- context [lift ?r] => destruct r eqn:?; step_cbn
  | |- context [if PyStr.eqb ?a ?b then _ else _] =>
      destruct (PyStr.eqb a b) eqn:?; step_cbn
  end.

Ltac wp_start :=
  unfold XGBoost.notebook, XGBoost.cell_imports, XGBoost.cell_data,
    XGBoost.cell_train, XGBoost.cell_plot_tree, XGBoost.cell_accuracy,
    XGBoost.cell_feature_names, XGBoost.cell_convert, XGBoost.cell_show,
    XGBoost.cell_save, XGBoost.cell_predict,
    PyTorch.notebook, PyTorch.cell_model, PyTorch.cell_labels,
    PyTorch.cell_image, PyTorch.cell_test, PyTorch.cell_convert,
    PyTorch.cell_show, PyTorch.cell_save, PyTorch.cell_predict;
  step_cbn.

Ltac wp_run := wp_start; repeat wp_step.

(** Going through the events of an explicit trace. *)
Ltac in_cases H :=
  cbn [In] in H;
  repeat match type of H with
  | _ \/ _ => destruct H as [H|H]
  | False => contradiction
  end.


(* ================================================================== *)
(** ** The feature-name loop *)

Section FeatureNames.
Import XGBoost.

Lemma getitem_1_some (l : list str) :
  (2 <= List.length l)%nat -> PyList.getitem l 1 = Some (nth 1 l []).
Proof.
  destruct l as [|a [|b l]]; simpl; intros H; try lia.
  unfold PyList.getitem. simpl List.length.
  replace ((0 <=? 1) && (1 <? Z.of_nat (S (S (List.length l))))) with true.
  - reflexivity.
  - symmetry. apply andb_true_iff. split; [reflexivity|].
    apply Z.ltb_lt. lia.
Qed.

Lemma getitem_1_none (l : list str) :
  (List.length l < 2)%nat -> PyList.getitem l 1 = None.
Proof.
  destruct l as [|a [|b l]]; simpl; intros H; try lia; reflexivity.
Qed.

Lemma feature_names_loop_ok (lines acc : list str) :
  Forall two_tokens lines ->
  feature_names_loop lines acc = inl (acc ++ List.map second_token lines).
Proof.
  intros H. revert acc. induction H as [|line lines Hl _ IH]; intros acc.
  - simpl. now rewrite app_nil_r.
  - simpl. rewrite (getitem_1_some _ Hl). rewrite IH.
    now rewrite <- app_assoc.
Qed.

Lemma feature_names_loop_short (lines acc : list str) :
  Exists (fun line => ~ two_tokens line) lines ->
  feature_names_loop lines acc = inr IndexError.
Proof.
  intros H. revert acc. induction H as [line lines Hl|line lines _ IH];
    intros acc; simpl.
  - rewrite getitem_1_none; [reflexivity|]. unfold two_tokens in Hl. lia.
  - destruct (PyList.getitem (split line) 1); [apply IH | reflexivity].
Qed.

Lemma two_tokens_dec (lines : list str) :
  Forall two_tokens lines \/ Exists (fun line => ~ two_tokens line) lines.
Proof.
  induction lines as [|line lines [IH|IH]].
  - left; constructor.
  - destruct (le_lt_dec 2 (List.length (split line))) as [H|H].
    + left; constructor; assumption.
    + right; left. unfold two_tokens. lia.
  - right; right; assumption.
Qed.

End FeatureNames.

Lemma split_from_blank (line : str) :
  forallb isspace line = true -> split_from [] line = [].
Proof.
  induction line as [|c line IH]; simpl; [reflexivity|].
  intros H. apply andb_true_iff in H. destruct H as [Hc Hl].
  rewrite Hc. now apply IH.
Qed.

Lemma feature_names_loop_spec (lines : list str) :
  ((exists names, XGBoost.feature_names_loop lines [] = inl names)
   <-> Forall two_tokens lines) /\
  (XGBoost.feature_names_loop lines [] = inr IndexError
   <-> Exists (fun line => (List.length (split line) < 2)%nat) lines).
Proof.
  assert (Hex : forall l,
    Exists (fun line => ~ two_tokens line) l <->
    Exists (fun line => (List.length (split line) < 2)%nat) l).
  { intros l. rewrite !Exists_exists. unfold two_tokens.
    split; intros [x [Hin Hx]]; exists x; split; auto; lia. }
  repeat split.
  - intros [names Hn].
    destruct (two_tokens_dec lines) as [H|H]; [assumption|].
    rewrite (feature_names_loop_short _ H) in Hn. discriminate.
  - intros H. eexists. apply (feature_names_loop_ok [] H).
  - intros Hn.
    destruct (two_tokens_dec lines) as [H|H].
    + rewrite (feature_names_loop_ok [] H) in Hn. discriminate.
    + now apply Hex.
  - intros H. apply feature_names_loop_short. now apply Hex.
Qed.

Lemma feature_names_cell_runs :
  all_runs XGBoost.cell_feature_names (fun tr out =>
    forall e lines, In e tr -> lines_read e = Some lines ->
      (Exists (fun line => (List.length (split line) < 2)%nat) lines ->
         exists x, out = Raised x /\
           (Pipeline.last_failure tr = None -> x = IndexError)) /\
      (forall names, out = Returned names ->
         Forall two_tokens lines /\
         names = List.map second_token lines)).
Proof.
  unfold XGBoost.cell_feature_names. step_cbn. repeat wp_step.
  all: intros ev lines Hin Hread.
  all: in_cases Hin; subst ev; try discriminate Hread.
  all: injection Hread as <-.
  all: split; [intros Hshort | intros names Hnames].
  (* a short line among the lines read *)
  all: try (apply (proj2 (proj2 (feature_names_loop_spec _))) in Hshort;
            match goal with
            | H : XGBoost.feature_names_loop _ _ = inl _ |- _ =>
                rewrite Hshort in H; discriminate H
            end).
  all: try (apply (proj2 (proj2 (feature_names_loop_spec _))) in Hshort;
            match goal with
            | H : XGBoost.feature_names_loop _ _ = inr ?e |- _ =>
                is_var e; rewrite Hshort in H; injection H as <-
            end;
            eexists; split; [reflexivity|];
            cbn; intros Hnone; try discriminate Hnone; reflexivity).
  (* the cell returned *)
  all: try discriminate Hnames.
  all: injection Hnames as <-.
  all: match goal with
       | H : XGBoost.feature_names_loop ?l _ = inl ?n |- _ =>
           assert (Hall : Forall two_tokens l)
             by (apply (proj1 (feature_names_loop_spec l)); eauto);
           rewrite (feature_names_loop_ok [] Hall) in H;
           injection H as <-
       end.
  all: split; [assumption | reflexivity].
Qed.

(** C10.  The extraction indexes element 1 of each line's split, so it
    yields a list of names exactly when every line has at least two
    whitespace-separated tokens; as soon as one line is blank (nothing
    but whitespace) or holds a single token (its split has fewer than two
    elements) the loop fails with an [IndexError] and produces no list.  The cell behaves
    accordingly in every run: with such a line among the lines read it
    ends with an exception (the [IndexError], unless closing the file
    fails too), and when it returns a list every line had two tokens. *)
Theorem C10_feature_name_extraction_partial
    (W : Type) (h : handler W) (w : W) (lines : list str) :
  let r := run h XGBoost.cell_feature_names w in
  ((exists names, XGBoost.feature_names_loop lines [] = inl names)
   <-> Forall two_tokens lines) /\
  (XGBoost.feature_names_loop lines [] = inr IndexError
   <-> Exists (fun line => (List.length (split line) < 2)%nat) lines) /\
  (forall line, forallb isspace line = true ->
     XGBoost.feature_names_loop [line] [] = inr IndexError) /\
  (forall line tok, split line = [tok] ->
     XGBoost.feature_names_loop [line] [] = inr IndexError) /\
  (forall e, In e (trace_of r) -> lines_read e = Some lines ->
     (Exists (fun line => (List.length (split line) < 2)%nat) lines ->
        exists x, outcome_of r = Raised x /\
          (Pipeline.last_failure (trace_of r) = None -> x = IndexError)) /\
     (forall names, outcome_of r = Returned names ->
        Forall two_tokens lines /\ names = List.map second_token lines)).
Proof.
  intros r.
  destruct (feature_names_loop_spec lines) as [H1 H2].
  split; [exact H1|]. split; [exact H2|]. split; [|split].
  - intros line Hb. simpl. unfold split.
    now rewrite (split_from_blank _ Hb).
  - intros line tok Hs. simpl. now rewrite Hs.
  - intros e Hin Hread.
    exact (all_runs_sound h _ _ feature_names_cell_runs w e lines Hin Hread).
Qed.

(* ================================================================== *)
(** ** The example dictionary *)

Section ExampleDict.
Import XGBoost PyList PyListFacts.

Lemma lookup_in {V} (d : dict V) k v :
  NoDup (keys d) -> In (k, v) d -> lookup d k = Some v.
Proof.
  induction d as [|[k' v'] d IH]; simpl; intros Hnd Hin; [contradiction|].
  inversion Hnd as [|? ? Hnotin Hnd']; subst.
  destruct Hin as [Heq|Hin].
  - inversion Heq; subst. now rewrite PyStrFacts.eqb_refl.
  - destruct (PyStr.eqb k' k) eqn:E.
    + apply PyStrFacts.eqb_eq in E; subst k'.
      exfalso. apply Hnotin. unfold keys.
      change k with (fst (k, v)). now apply in_map.
    + now apply IH.
Qed.

Lemma keys_setitem {V} (d : dict V) k v :
  keys (setitem d k v) = keys d \/
  (~ In k (keys d) /\ keys (setitem d k v) = keys d ++ [k]).
Proof.
  induction d as [|[k' v'] d IH]; simpl.
  - right; split; auto.
  - destruct (PyStr.eqb k' k) eqn:E; simpl; [now left|].
    apply PyStrFacts.eqb_neq in E.
    destruct IH as [IH|[Hn IH]]; [left|right]; rewrite IH; auto.
    split; auto. intros [H|H]; auto.
Qed.

Lemma nodup_setitem {V} (d : dict V) k v :
  NoDup (keys d) -> NoDup (keys (setitem d k v)).
Proof.
  intros H. destruct (keys_setitem d k v) as [E|[Hn E]]; rewrite E; auto.
  apply NoDup_app; auto.
  - repeat constructor; auto.
  - intros x Hx [<-|[]]. contradiction.
Qed.

Lemma example_step_cases (d : dict pyval) (name : str) :
  example_step d name = d \/
  (startswith name vendor = true /\
   example_step d name = setitem d name (one_hot name)).
Proof.
  unfold example_step, one_hot, vendor_ibm, vendor.
  destruct (PyStr.eqb name (py "vendor:ibm")) eqn:E.
  - right. split; auto.
    apply PyStrFacts.eqb_eq in E. subst name. reflexivity.
  - destruct (startswith name (py "vendor")); auto.
Qed.

Lemma example_step_vendor_ok d name :
  vendor_ok d -> vendor_ok (example_step d name).
Proof.
  intros Hd. destruct (example_step_cases d name) as [->|[Hv ->]]; auto.
  intros k v Hk Hs.
  destruct (PyStr.eqb k name) eqn:E.
  - apply PyStrFacts.eqb_eq in E; subst k.
    rewrite lookup_setitem_same in Hk. congruence.
  - apply PyStrFacts.eqb_neq in E.
    rewrite lookup_setitem_other in Hk by assumption. eauto.
Qed.

Lemma example_step_other d name k :
  startswith k vendor = false ->
  lookup (example_step d name) k = lookup d k.
Proof.
  intros Hk. destruct (example_step_cases d name) as [->|[Hv ->]]; auto.
  apply lookup_setitem_other. congruence.
Qed.

Lemma example_step_nodup d name :
  NoDup (keys d) -> NoDup (keys (example_step d name)).
Proof.
  intros H. destruct (example_step_cases d name) as [->|[_ ->]]; auto.
  now apply nodup_setitem.
Qed.

Lemma example_loop_inv names d :
  vendor_ok d -> NoDup (keys d) ->
  vendor_ok (example_loop names d) /\
  NoDup (keys (example_loop names d)) /\
  forall k, startswith k vendor = false ->
            lookup (example_loop names d) k = lookup d k.
Proof.
  revert d. induction names as [|name names IH]; intros d Hd Hn; simpl.
  - auto.
  - destruct (IH (example_step d name)) as [H1 [H2 H3]].
    + now apply example_step_vendor_ok.
    + now apply example_step_nodup.
    + repeat split; auto.
      intros k Hk. rewrite H3 by assumption.
      now apply example_step_other.
Qed.

End ExampleDict.

(** C9.  After the one-hot loop, for every list of feature names: every
    entry of the example dict whose key starts with 'vendor' holds 1 when
    the key is 'vendor:ibm' and 0 otherwise, so two vendor keys that both
    hold 1 are the same key; and the six literal entries MYCT, MMIN, MMAX,
    CACH, CHMIN and CHMAX still hold their literal values. *)
Theorem C9_example_one_hot (feature_names : list str) :
  let example := XGBoost.cell_example feature_names in
  (forall k v, In (k, v) example -> startswith k (py "vendor") = true ->
     v = if PyStr.eqb k (py "vendor:ibm") then VInt 1 else VInt 0) /\
  (forall k1 k2, In (k1, VInt 1) example -> In (k2, VInt 1) example ->
     startswith k1 (py "vendor") = true ->
     startswith k2 (py "vendor") = true -> k1 = k2) /\
  PyList.lookup example (py "MYCT") = Some (VInt 125) /\
  PyList.lookup example (py "MMIN") = Some (VInt 256) /\
  PyList.lookup example (py "MMAX") = Some (VInt 6000) /\
  PyList.lookup example (py "CACH") = Some (VInt 256) /\
  PyList.lookup example (py "CHMIN") = Some (VInt 16) /\
  PyList.lookup example (py "CHMAX") = Some (VInt 128).
Proof.
  intros example.
  assert (Hlit : vendor_ok XGBoost.example_literal).
  { intros k v Hk Hs. unfold XGBoost.example_literal in Hk.
    cbn [PyList.lookup] in Hk.
    repeat match type of Hk with
    | (if PyStr.eqb ?a k then _ else _) = _ =>
        destruct (PyStr.eqb a k) eqn:E;
        [apply PyStrFacts.eqb_eq in E; subst k; vm_compute in Hs;
         discriminate Hs|clear E]
    end. discriminate. }
  assert (Hnd : NoDup (PyList.keys XGBoost.example_literal)).
  { vm_compute. repeat constructor; simpl; intuition discriminate. }
  destruct (example_loop_inv feature_names Hlit Hnd) as [H1 [H2 H3]].
  fold (XGBoost.cell_example feature_names) in H1, H2, H3.
  fold example in H1, H2, H3.
  assert (Hent : forall k v, In (k, v) example ->
            startswith k vendor = true -> v = one_hot k).
  { intros k v Hin Hs. apply (H1 k v); auto. now apply lookup_in. }
  split; [exact Hent|]. split.
  - intros k1 k2 Hin1 Hin2 Hs1 Hs2.
    pose proof (Hent _ _ Hin1 Hs1) as E1. pose proof (Hent _ _ Hin2 Hs2) as E2.
    unfold one_hot in E1, E2.
    destruct (PyStr.eqb k1 vendor_ibm) eqn:F1; [|discriminate].
    destruct (PyStr.eqb k2 vendor_ibm) eqn:F2; [|discriminate].
    apply PyStrFacts.eqb_eq in F1, F2. congruence.
  - repeat split; rewrite H3; reflexivity.
Qed.

(* ================================================================== *)
(** ** The class labels *)

Lemma slice_from_1_length {A} (l : list A) :
  List.length (PyList.slice_from_1 l) = 1000%nat <->
  List.length l = 1001%nat.
Proof.
  unfold PyList.slice_from_1. destruct l as [|a l]; simpl.
  - split; discriminate.
  - split; intros H; [now f_equal | now injection H].
Qed.

Lemma class_labels_spec (text : str) :
  ((exists labels, PyTorch.class_labels_of text = inl labels)
   <-> List.length (splitlines text) = 1001%nat) /\
  (forall labels, PyTorch.class_labels_of text = inl labels ->
     List.length labels = 1000%nat /\
     exists first, splitlines text = first :: labels) /\
  (List.length (splitlines text) <> 1001%nat ->
     PyTorch.class_labels_of text = inr AssertionError).
Proof.
  unfold PyTorch.class_labels_of.
  destruct (Nat.eqb (List.length (PyList.slice_from_1 (splitlines text))) 1000)
    eqn:E.
  - apply Nat.eqb_eq in E. pose proof (proj1 (slice_from_1_length _) E) as E1.
    repeat split.
    + auto.
    + intros _. eexists; reflexivity.
    + injection H as <-. exact E.
    + injection H as <-.
      destruct (splitlines text) as [|first rest]; [discriminate|].
      exists first. reflexivity.
    + intros H; contradiction.
  - apply Nat.eqb_neq in E.
    repeat split; try discriminate.
    + intros [labels H]; discriminate.
    + intros H. exfalso. apply E. now apply slice_from_1_length.
Qed.



(** A text of 1001 lines: the labels are its last 1000 lines. *)
Example class_labels_demo :
  PyTorch.class_labels_of Demo.labels
  = inl (List.repeat (py "tench") 1000) /\
  PyTorch.class_labels_of (py "background") = inr AssertionError.
Proof. split; vm_compute; reflexivity. Qed.

(* ================================================================== *)
(** ** The XGBoost notebook: training and conversion calls *)

Lemma xgboost_train_call (platform : str) :
  all_runs (XGBoost.notebook platform) (fun tr out =>
    (forall e, In e tr -> callee_of e = Some xgb_train ->
       exists dtrain, ev_op e =
         LibCall xgb_train [VDict XGBoost.param; VObj dtrain]
                 [(py "num_boost_round", VInt 2)]) /\
    (completed out = true ->
       exists e, In e tr /\ callee_of e = Some xgb_train)).
Proof.
  wp_run.
  all: split; [intros ev Hin Hc | intros Hdone].
  all: try discriminate Hdone.
  all: try (in_cases Hin; subst ev; try discriminate Hc;
            eexists; reflexivity).
  all: eexists; split; [do 4 right; left; reflexivity | reflexivity].
Qed.

(** C6.  The training function is called with the hyperparameter record
    [param] and [num_boost_round=2]: the record has the five named fields
    objective, eta, gamma, min_child_weight and max_depth, each holding a
    scalar, and every call of [xgb.train] in every run, whatever the
    environment and the platform, carries this same record; a run that
    completes has made the call. *)
Theorem C6_training_hyperparameters
    (W : Type) (h : handler W) (w : W) (platform : str) :
  let r := run h (XGBoost.notebook platform) w in
  List.map fst XGBoost.param =
    [py "objective"; py "eta"; py "gamma"; py "min_child_weight";
     py "max_depth"] /\
  forallb (fun kv => is_scalar (snd kv)) XGBoost.param = true /\
  (forall e, In e (trace_of r) -> callee_of e = Some xgb_train ->
     exists dtrain, ev_op e =
       LibCall xgb_train [VDict XGBoost.param; VObj dtrain]
               [(py "num_boost_round", VInt 2)]) /\
  (completed (outcome_of r) = true ->
     exists e, In e (trace_of r) /\ callee_of e = Some xgb_train).
Proof.
  intros r. split; [reflexivity|]. split; [reflexivity|].
  exact (all_runs_sound h _ _ (xgboost_train_call platform) w).
Qed.

Lemma xgboost_convert_call (platform : str) :
  all_runs (XGBoost.notebook platform) (fun tr out =>
    forall lines,
      (exists e, In e tr /\ lines_read e = Some lines) ->
      Forall two_tokens lines ->
      (forall e, In e tr ->
         callee_of e = Some ct_converters_xgboost_convert ->
         exists bst_model, ev_op e =
           LibCall ct_converters_xgboost_convert [VObj bst_model]
             [ (py "feature_names",
                VList (List.map VStr (List.map second_token lines)));
               (py "target", VStr (py "perf"));
               (py "mode", VStr (py "regressor")) ]) /\
      (completed out = true ->
         exists e, In e tr /\
           callee_of e = Some ct_converters_xgboost_convert)).
Proof.
  wp_run.
  all: intros lines [evr [Hin0 Hread]] Hlines.
  all: in_cases Hin0; subst evr; try discriminate Hread.
  all: injection Hread as ->.
  all: match goal with
       | H : XGBoost.feature_names_loop ?l [] = _,
         Hl : Forall two_tokens ?l |- _ =>
           rewrite (feature_names_loop_ok [] Hl) in H;
           cbn [app] in H; try discriminate H; try (injection H as <-)
       | _ => idtac
       end.
  all: split; [intros ev Hin Hc | intros Hdone].
  all: try discriminate Hdone.
  all: try (in_cases Hin; subst ev; try discriminate Hc;
            eexists; reflexivity).
  all: eexists; split; [do 24 right; left; reflexivity | reflexivity].
Qed.

(** C5.  For every list of lines read from the feature-map file in which
    each line has at least two whitespace-separated tokens, the
    feature-name list is the second token of each line, in line order, and
    every conversion call of the run receives exactly that list as
    [feature_names], with [target='perf'] and [mode='regressor']; a run
    that completes has made the call. *)
Theorem C5_feature_names_passed_through
    (W : Type) (h : handler W) (w : W) (platform : str) (lines : list str) :
  let r := run h (XGBoost.notebook platform) w in
  (exists e, In e (trace_of r) /\ lines_read e = Some lines) ->
  Forall two_tokens lines ->
  XGBoost.feature_names_loop lines [] =
    inl (List.map second_token lines) /\
  (forall e, In e (trace_of r) ->
     callee_of e = Some ct_converters_xgboost_convert ->
     exists bst_model, ev_op e =
       LibCall ct_converters_xgboost_convert [VObj bst_model]
         [ (py "feature_names",
            VList (List.map VStr (List.map second_token lines)));
           (py "target", VStr (py "perf"));
           (py "mode", VStr (py "regressor")) ]) /\
  (completed (outcome_of r) = true ->
     exists e, In e (trace_of r) /\
       callee_of e = Some ct_converters_xgboost_convert).
Proof.
  intros r Hread Hlines.
  split; [exact (feature_names_loop_ok [] Hlines)|].
  exact (all_runs_sound h _ _ (xgboost_convert_call platform) w
           lines Hread Hlines).
Qed.

(** The demo directory: the feature map has two tokens or more on each
    line, and the run of the notebook reads it and converts with the
    names of its second column. *)
Lemma C5_feature_names_witness :
  let r := run Demo.handle (XGBoost.notebook Demo.linux) Demo.start in
  List.map second_token Demo.featmap =
    [py "vendor:hp"; py "vendor:ibm"; py "MYCT"; py "MMIN"; py "MMAX";
     py "CACH"; py "CHMIN"; py "CHMAX"] /\
  completed (outcome_of r) = true /\
  (forall e, In e (trace_of r) ->
     callee_of e = Some ct_converters_xgboost_convert ->
     exists bst_model, ev_op e =
       LibCall ct_converters_xgboost_convert [VObj bst_model]
         [ (py "feature_names",
            VList (List.map VStr (List.map second_token Demo.featmap)));
           (py "target", VStr (py "perf"));
           (py "mode", VStr (py "regressor")) ]).
Proof.
  intros r. split; [reflexivity|]. split; [reflexivity|].
  refine (proj1 (proj2 (@C5_feature_names_passed_through
            Demo.world Demo.handle Demo.start Demo.linux Demo.featmap _ _))).
  - exists (nth 20 (trace_of
               (run Demo.handle (XGBoost.notebook Demo.linux) Demo.start))
               (Ev (Import []) (inl tt))).
    split; [apply nth_In; vm_compute; lia | vm_compute; reflexivity].
  - unfold two_tokens. repeat constructor; vm_compute; lia.
Defined.

(* ================================================================== *)
(** ** The top-five loop of the PyTorch notebook *)

(** Every run of the loop is a sequence of successful element reads and
    prints, ended by the end of the indices, by an index out of range, or
    by the failure of one of these two operations. *)
Lemma all_runs_print_loop (labels : list str) (out : obj) (idxs : list Z)
    (Q : list event -> outcome unit -> Prop) :
  (forall tr, reported tr -> Q tr (Returned tt)) ->
  (forall tr, reported tr -> Q tr (Raised IndexError)) ->
  (forall tr e x, reported tr -> is_report e = true ->
     Pipeline.ev_exn e = Some x -> Q (tr ++ [e]) (Raised x)) ->
  all_runs (for_each idxs (PyTorch.print_top labels out)) Q.
Proof.
  revert Q. induction idxs as [|i idxs IH]; intros Q H1 H2 H3.
  - simpl. apply H1. constructor.
  - cbn [for_each]. apply all_runs_bind. unfold PyTorch.print_top.
    destruct (PyList.getitem labels i) as [label|].
    + step_cbn. intros [score|x]; step_cbn.
      * intros [[]|x]; step_cbn.
        -- apply IH.
           ++ intros tr Htr. apply (H1 (_ :: _ :: tr)).
              repeat constructor; assumption.
           ++ intros tr Htr. apply (H2 (_ :: _ :: tr)).
              repeat constructor; assumption.
           ++ intros tr e x Htr He Hx. apply (H3 (_ :: _ :: tr)); auto.
              repeat constructor; assumption.
        -- apply (H3 [_] _ x); auto. repeat constructor.
      * apply (H3 [] _ x); auto. constructor.
    + simpl. apply H2. constructor.
Qed.

Ltac wp_loop :=
  lazymatch goal with
  | |- all_runs (bind (for_each _ _) _) _ =>
      apply all_runs_bind; apply all_runs_print_loop;
      [ intros ?tr ?Hrep | intros ?tr ?Hrep
      | intros ?tr ?ev ?x ?Hrep ?Hev ?Hx ];
      step_cbn
  end.

Ltac wp_full := wp_start; repeat (wp_step || wp_loop).

Section ReportedFacts.
Import Effects Pipeline.

Lemma reported_reads tr : reported tr -> reads tr = [].
Proof.
  induction 1 as [|[o r] tr [Hr _] _ IH]; [reflexivity|].
  unfold reads in *. cbn [flat_map]. rewrite IH.
  destruct o as [| c ? ? | | | | | | |]; try discriminate Hr; try reflexivity.
  destruct c; try discriminate Hr; reflexivity.
Qed.

Lemma reported_writes tr : reported tr -> writes tr = [].
Proof.
  induction 1 as [|[o r] tr [Hr _] _ IH]; [reflexivity|].
  unfold writes in *. cbn [flat_map]. rewrite IH.
  destruct o as [| c ? ? | | | | | | |]; try discriminate Hr; try reflexivity.
  destruct c; try discriminate Hr; reflexivity.
Qed.

Lemma reported_fetches tr : reported tr -> fetches tr = [].
Proof.
  induction 1 as [|[o r] tr [Hr _] _ IH]; [reflexivity|].
  unfold fetches in *. cbn [flat_map]. rewrite IH.
  destruct o as [| c ? ? | | | | | | |]; try discriminate Hr; try reflexivity.
  destruct c; try discriminate Hr; reflexivity.
Qed.

Lemma report_reads e : is_report e = true -> files_read (ev_op e) = [].
Proof.
  destruct e as [o r]. unfold is_report. simpl.
  destruct o as [| c ? ? | | | | | | |]; try discriminate; try reflexivity.
  destruct c; try discriminate; reflexivity.
Qed.

Lemma report_writes e : is_report e = true -> files_written (ev_op e) = [].
Proof.
  destruct e as [o r]. unfold is_report. simpl.
  destruct o as [| c ? ? | | | | | | |]; try discriminate; try reflexivity.
  destruct c; try discriminate; reflexivity.
Qed.

Lemma report_fetched e : is_report e = true -> fetched (ev_op e) = [].
Proof.
  destruct e as [o r]. unfold is_report. simpl.
  destruct o as [| c ? ? | | | | | | |]; try discriminate; try reflexivity.
  destruct c; try discriminate; reflexivity.
Qed.

End ReportedFacts.

(* ================================================================== *)
(** ** Files and network *)

Lemma subset_incl l allowed : subset l allowed = true -> incl l allowed.
Proof.
  unfold subset. rewrite forallb_forall. intros H x Hx.
  specialize (H x Hx). apply existsb_exists in H.
  destruct H as [y [Hy E]]. apply PyStrFacts.eqb_eq in E. now subst.
Qed.

Ltac effects_norm :=
  unfold Effects.reads, Effects.writes, Effects.fetches;
  cbn [flat_map Effects.files_read Effects.files_written
       Effects.fetched ev_op app];
  rewrite ?flat_map_app;
  try match goal with
  | H : reported ?tr |- _ =>
      let R := fresh in let V := fresh in let U := fresh in
      pose proof (reported_reads H) as R;
      pose proof (reported_writes H) as V;
      pose proof (reported_fetches H) as U;
      unfold Effects.reads, Effects.writes, Effects.fetches in R, V, U;
      rewrite ?R, ?V, ?U; clear R V U
  end;
  try match goal with
  | H : is_report ?e = true |- _ =>
      cbn [flat_map];
      rewrite ?(report_reads _ H), ?(report_writes _ H),
        ?(report_fetched _ H)
  end;
  cbn [app].

Lemma xgboost_effects (platform : str) :
  all_runs (XGBoost.notebook platform) (fun tr out =>
    Effects.fetches tr = [] /\
    subset (Effects.reads tr)
           (xgboost_inputs ++ on_macos platform [XGBoost.artifact]) = true /\
    subset (Effects.writes tr) [XGBoost.artifact] = true /\
    (completed out = true ->
       Effects.distinct [] (Effects.reads tr) =
         xgboost_inputs ++ on_macos platform [XGBoost.artifact] /\
       Effects.writes tr = [XGBoost.artifact])).
Proof.
  wp_start. unfold on_macos.
  destruct (PyStr.eqb platform (py "darwin")); step_cbn.
  all: repeat wp_step.
  all: effects_norm.
  all: repeat split; try (vm_compute; reflexivity); try discriminate.
Qed.

Lemma pytorch_effects (platform : str) :
  all_runs (PyTorch.notebook platform) (fun tr out =>
    (exists rest, Effects.fetches tr ++ rest = pytorch_remotes) /\
    subset (Effects.reads tr)
           (pytorch_inputs ++ on_macos platform [PyTorch.artifact]) = true /\
    subset (Effects.writes tr) [PyTorch.artifact] = true /\
    (completed out = true ->
       Effects.fetches tr = pytorch_remotes /\
       Effects.distinct [] (Effects.reads tr) =
         pytorch_inputs ++ on_macos platform [PyTorch.artifact] /\
       Effects.writes tr = [PyTorch.artifact])).
Proof.
  wp_start. unfold on_macos.
  destruct (PyStr.eqb platform (py "darwin")); step_cbn.
  all: repeat (wp_step || wp_loop).
  all: effects_norm.
  all: split; [eexists; reflexivity|].
  all: repeat split; try (vm_compute; reflexivity); try discriminate.
Qed.



(** C3, as the code has it.  The XGBoost notebook reads three literal
    file names (the training data, the test data and the feature map) and
    the PyTorch notebook one (the image); each writes one literal
    artifact name and, on macOS only, reads that artifact back.  No run
    reads or writes any other name, and a run that completes has read
    exactly these names and written exactly the artifact. *)
Theorem C3_file_interface
    (W : Type) (h : handler W) (w : W) (platform : str) :
  let x := run h (XGBoost.notebook platform) w in
  let p := run h (PyTorch.notebook platform) w in
  (xgboost_inputs =
     [py "machine.txt.train"; py "machine.txt.test";
      py "machine.featmap.txt"] /\
   incl (Effects.reads (trace_of x))
        (xgboost_inputs ++ on_macos platform [py "machine.mlmodel"]) /\
   incl (Effects.writes (trace_of x)) [py "machine.mlmodel"] /\
   (completed (outcome_of x) = true ->
      Effects.distinct [] (Effects.reads (trace_of x)) =
        xgboost_inputs ++ on_macos platform [py "machine.mlmodel"] /\
      Effects.writes (trace_of x) = [py "machine.mlmodel"])) /\
  (pytorch_inputs = [py "Dog.jpg"] /\
   incl (Effects.reads (trace_of p))
        (pytorch_inputs
         ++ on_macos platform [py "MobileNet_v2_torch.mlmodel"]) /\
   incl (Effects.writes (trace_of p)) [py "MobileNet_v2_torch.mlmodel"] /\
   (completed (outcome_of p) = true ->
      Effects.distinct [] (Effects.reads (trace_of p)) =
        pytorch_inputs
        ++ on_macos platform [py "MobileNet_v2_torch.mlmodel"] /\
      Effects.writes (trace_of p) = [py "MobileNet_v2_torch.mlmodel"])).
Proof.
  intros x p.
  destruct (all_runs_sound h _ _ (xgboost_effects platform) w)
    as [_ [X2 [X3 X4]]].
  destruct (all_runs_sound h _ _ (pytorch_effects platform) w)
    as [_ [P3 [P4 P5]]].
  fold x in X2, X3, X4. fold p in P3, P4, P5.
  apply subset_incl in X2, X3, P3, P4.
  split; (split; [reflexivity|]); (split; [assumption|]);
    (split; [assumption|]); intros Hc.
  - exact (X4 Hc).
  - exact (proj2 (P5 Hc)).
Qed.

(** C3 as stated fails: in the demo directory, off macOS, the XGBoost
    notebook reads three distinct files, not two, and the PyTorch
    notebook one. *)
Lemma C3_counterexample :
  Effects.distinct []
    (Effects.reads
       (trace_of (run Demo.handle (XGBoost.notebook Demo.linux) Demo.start)))
  = [py "machine.txt.train"; py "machine.txt.test"; py "machine.featmap.txt"]
  /\
  Effects.distinct []
    (Effects.reads
       (trace_of (run Demo.handle (PyTorch.notebook Demo.linux) Demo.start)))
  = [py "Dog.jpg"]
  /\
  List.length
    (Effects.distinct []
       (Effects.reads
          (trace_of
             (run Demo.handle (XGBoost.notebook Demo.linux) Demo.start))))
  <> 2%nat.
Proof.
  split; [vm_compute; reflexivity|].
  split; [vm_compute; reflexivity | vm_compute; discriminate].
Qed.

(* ================================================================== *)
(** ** Order of the pipeline steps *)

Section MonitorFacts.
Import Pipeline.

Lemma stage_eqb_refl s : stage_eqb s s = true.
Proof. destruct s; reflexivity. Qed.

Variable rank : stage -> nat.
Hypothesis rank_inj : forall a b, rank a = rank b -> a = b.

(** A trace the monitor accepts is in order. *)
Lemma monitor_sound_from (tr : list event) :
  forall (n : nat) (pre : list event),
    (forall s', (rank s' < n)%nat ->
       exists e', In e' pre /\ done_step s' e' = true) ->
    monitor rank n tr <> None ->
    forall tr1 e tr2 s s',
      tr = tr1 ++ e :: tr2 ->
      stage_of (ev_op e) = Some s ->
      (rank s' < rank s)%nat ->
      exists e', In e' (pre ++ tr1) /\ done_step s' e' = true.
Proof.
  induction tr as [|a tr IH]; intros n pre Hinv Hmon tr1 e tr2 s s' Heq Hs Hlt.
  - destruct tr1; discriminate.
  - cbn [monitor] in Hmon.
    destruct (monitor_step rank n a) as [n'|] eqn:Hstep; [|congruence].
    destruct tr1 as [|b tr1]; cbn [app] in Heq; injection Heq as <- Heq.
    + rewrite app_nil_r. apply Hinv.
      unfold monitor_step in Hstep. rewrite Hs in Hstep.
      destruct (rank s <=? n)%nat eqn:Hle; [|discriminate].
      apply Nat.leb_le in Hle. lia.
    + assert (Hinv' : forall s0, (rank s0 < n')%nat ->
                exists e', In e' (pre ++ [a]) /\ done_step s0 e' = true).
      { intros s0 H0. unfold monitor_step in Hstep.
        destruct (stage_of (ev_op a)) as [sa|] eqn:Hsa.
        - destruct (rank sa <=? n)%nat; [|discriminate].
          injection Hstep as <-.
          destruct (ev_ok a && (rank sa =? n)%nat) eqn:Hok.
          + apply andb_true_iff in Hok. destruct Hok as [Hok Hr].
            apply Nat.eqb_eq in Hr.
            destruct (Nat.eq_dec (rank s0) n) as [E|E].
            * exists a. split; [apply in_or_app; right; now left|].
              assert (s0 = sa) as -> by (apply rank_inj; congruence).
              unfold done_step. rewrite Hok, Hsa.
              apply stage_eqb_refl.
            * destruct (Hinv s0) as [e' [Hin Hd]]; [lia|].
              exists e'. split; [apply in_or_app; now left | exact Hd].
          + destruct (Hinv s0 H0) as [e' [Hin Hd]].
            exists e'. split; [apply in_or_app; now left | exact Hd].
        - injection Hstep as <-.
          destruct (Hinv s0 H0) as [e' [Hin Hd]].
          exists e'. split; [apply in_or_app; now left | exact Hd]. }
      destruct (IH n' (pre ++ [a]) Hinv' Hmon tr1 e tr2 s s' Heq Hs Hlt)
        as [e' [Hin Hd]].
      exists e'. split; [|exact Hd].
      rewrite <- app_assoc in Hin. exact Hin.
Qed.

Lemma monitor_sound (tr : list event) :
  monitor rank 0 tr <> None -> in_order rank tr.
Proof.
  intros Hmon tr1 e tr2 s s' Heq Hs Hlt.
  assert (Hinv : forall s0, (rank s0 < 0)%nat ->
            exists e', In e' [] /\ done_step s0 e' = true)
    by (intros s0 H0; lia).
  exact (@monitor_sound_from tr 0 [] Hinv Hmon tr1 e tr2 s s' Heq Hs Hlt).
Qed.

Lemma report_monitor_step e n :
  is_report e = true -> monitor_step rank n e = Some n.
Proof.
  destruct e as [o r]. unfold is_report, monitor_step. simpl.
  destruct o as [| c ? ? | | | | | | |]; try discriminate; try reflexivity.
  destruct c; try discriminate; reflexivity.
Qed.

Lemma reported_monitor tr rest n :
  reported tr -> monitor rank n (tr ++ rest) = monitor rank n rest.
Proof.
  induction 1 as [|e tr [Hr _] _ IH]; [reflexivity|].
  cbn [app monitor]. now rewrite (report_monitor_step _ n Hr).
Qed.

Lemma reported_monitor_all tr n :
  reported tr -> monitor rank n tr = Some n.
Proof.
  intros H. rewrite <- (app_nil_r tr). now rewrite reported_monitor.
Qed.

End MonitorFacts.

Lemma rank_spec_inj a b : Pipeline.rank_spec a = Pipeline.rank_spec b -> a = b.
Proof. destruct a, b; simpl; intros H; congruence. Qed.

Lemma rank_torch_inj a b :
  Pipeline.rank_torch a = Pipeline.rank_torch b -> a = b.
Proof. destruct a, b; simpl; intros H; congruence. Qed.

Ltac monitor_norm rank :=
  cbn [Pipeline.monitor Pipeline.monitor_step Pipeline.stage_of ev_op ev_ok
       ev_res rank Nat.leb Nat.eqb andb];
  try match goal with
  | H : reported ?tr |- _ =>
      rewrite (reported_monitor rank _ _ H)
      || rewrite (reported_monitor_all rank _ H)
  end;
  cbn [Pipeline.monitor Pipeline.monitor_step Pipeline.stage_of ev_op ev_ok
       ev_res rank Nat.leb Nat.eqb andb];
  try match goal with
  | H : is_report ?e = true |- _ => rewrite (report_monitor_step rank _ _ H)
  end.

Lemma xgboost_monitor (platform : str) :
  all_runs (XGBoost.notebook platform) (fun tr out =>
    Pipeline.monitor Pipeline.rank_spec 0 tr <> None).
Proof.
  wp_run.
  all: monitor_norm Pipeline.rank_spec; discriminate.
Qed.

Lemma pytorch_monitor (platform : str) :
  all_runs (PyTorch.notebook platform) (fun tr out =>
    Pipeline.monitor Pipeline.rank_torch 0 tr <> None).
Proof.
  wp_full.
  all: monitor_norm Pipeline.rank_torch; discriminate.
Qed.

Lemma report_step e : is_report e = true -> step_of e = [].
Proof.
  destruct e as [o r]. unfold is_report, step_of. simpl.
  destruct o as [| c ? ? | | | | | | |]; try discriminate; try reflexivity.
  destruct c; try discriminate; reflexivity.
Qed.

Lemma reported_steps tr : reported tr -> steps tr = [].
Proof.
  induction 1 as [|e tr [Hr _] _ IH]; [reflexivity|].
  unfold steps in *. cbn [flat_map]. now rewrite (report_step _ Hr), IH.
Qed.

Ltac steps_norm :=
  unfold follows_pipeline, steps;
  cbn [flat_map step_of Pipeline.stage_of Effects.files_read
       Effects.files_written ev_op ev_ok ev_res app];
  rewrite ?flat_map_app;
  try match goal with
  | H : reported ?tr |- _ =>
      let R := fresh in
      pose proof (reported_steps H) as R; unfold steps in R;
      rewrite ?R; clear R
  end;
  try match goal with
  | H : is_report ?e = true |- _ =>
      cbn [flat_map]; rewrite ?(report_step _ H)
  end;
  cbn [app List.map fst snd removelast forallb andb].

Ltac steps_solve :=
  split; [eexists; reflexivity|];
  split; [reflexivity|];
  intros Hdone; first [discriminate Hdone | split; reflexivity].

Lemma xgboost_pipeline_steps (platform : str) :
  all_runs (XGBoost.notebook platform)
           (follows_pipeline (xgboost_pipeline platform)).
Proof.
  wp_start. unfold xgboost_pipeline.
  destruct (PyStr.eqb platform (py "darwin")); step_cbn.
  all: repeat wp_step.
  all: steps_norm; steps_solve.
Qed.

Lemma pytorch_pipeline_steps (platform : str) :
  all_runs (PyTorch.notebook platform)
           (follows_pipeline (pytorch_pipeline platform)).
Proof.
  wp_start. unfold pytorch_pipeline.
  destruct (PyStr.eqb platform (py "darwin")); step_cbn.
  all: repeat (wp_step || wp_loop).
  all: steps_norm; steps_solve.
Qed.

(** An event of a run that follows a pipeline is one of its operations. *)
Lemma pipeline_member {A} (full : list pipeline_op) (tr : list event)
    (out : outcome A) (e : event) (s : Pipeline.stage) (c : callee) :
  follows_pipeline full tr out ->
  In e tr ->
  Pipeline.stage_of (ev_op e) = Some s ->
  callee_of e = Some c ->
  In (s, c, Effects.files_read (ev_op e) ++ Effects.files_written (ev_op e))
     full.
Proof.
  intros [[rest Hpre] _] Hin Hs Hc.
  rewrite <- Hpre. apply in_or_app. left.
  apply in_map_iff.
  exists ((s, c, Effects.files_read (ev_op e)
                 ++ Effects.files_written (ev_op e)), ev_ok e).
  split; [reflexivity|].
  unfold steps. apply in_flat_map. exists e. split; [exact Hin|].
  unfold step_of, callee_of in *.
  destruct (ev_op e) as [| c' args kwargs | | | | | | |];
    try discriminate Hc.
  injection Hc as ->. rewrite Hs. now left.
Qed.

Lemma reload_event e :
  callee_of e = Some ct_models_MLModel ->
  Pipeline.stage_of (ev_op e) = Some Pipeline.Reload /\
  Effects.files_written (ev_op e) = [].
Proof.
  destruct e as [o r]. unfold callee_of. simpl.
  destruct o as [| c ? ? | | | | | | |]; try discriminate.
  intros H. injection H as ->. split; reflexivity.
Qed.

Lemma save_event e :
  Pipeline.done_step Pipeline.Save e = true ->
  callee_of e = Some MLModel_save /\ ev_ok e = true /\
  Pipeline.stage_of (ev_op e) = Some Pipeline.Save /\
  Effects.files_read (ev_op e) = [].
Proof.
  destruct e as [o r]. unfold Pipeline.done_step, callee_of. simpl.
  intros H. apply andb_true_iff in H. destruct H as [Hok H].
  destruct o as [| c ? ? | | | | | | |]; try discriminate H.
  destruct c; try discriminate H. repeat split; auto.
Qed.

(** In a run that follows a pipeline whose only reload and only save name
    [artifact], a reload reads [artifact] after a successful save has
    written it. *)
Lemma reload_after_save {A} (rank : Pipeline.stage -> nat)
    (full : list pipeline_op) (artifact : str)
    (tr : list event) (out : outcome A) :
  follows_pipeline full tr out ->
  Pipeline.in_order rank tr ->
  (rank Pipeline.Save < rank Pipeline.Reload)%nat ->
  (forall files, In (Pipeline.Reload, ct_models_MLModel, files) full ->
     files = [artifact]) ->
  (forall files, In (Pipeline.Save, MLModel_save, files) full ->
     files = [artifact]) ->
  forall tr1 e tr2,
    tr = tr1 ++ e :: tr2 ->
    callee_of e = Some ct_models_MLModel ->
    Effects.files_read (ev_op e) = [artifact] /\
    exists e', In e' tr1 /\ callee_of e' = Some MLModel_save /\
               ev_ok e' = true /\
               Effects.files_written (ev_op e') = [artifact].
Proof.
  intros Hfull Hord Hrank Hreload Hsave tr1 e tr2 Heq He.
  destruct (@reload_event _ He) as [Hs Hw].
  assert (Hin : In e tr) by (rewrite Heq; apply in_or_app; right; now left).
  split.
  - pose proof (@pipeline_member _ _ _ _ _ _ _ Hfull Hin Hs He) as Hm.
    apply Hreload in Hm. rewrite Hw, app_nil_r in Hm. exact Hm.
  - destruct (Hord tr1 e tr2 Pipeline.Reload Pipeline.Save Heq Hs Hrank)
      as [e' [Hin' Hd]].
    destruct (@save_event _ Hd) as [Hc' [Hok' [Hs' Hr']]].
    exists e'. repeat split; auto.
    assert (Hin2 : In e' tr) by (rewrite Heq; apply in_or_app; now left).
    pose proof (@pipeline_member _ _ _ _ _ _ _ Hfull Hin2 Hs' Hc') as Hm.
    apply Hsave in Hm. rewrite Hr' in Hm. exact Hm.
Qed.

Lemma xgboost_pipeline_files (platform : str) (s : Pipeline.stage)
    (c : callee) (files : list str) :
  In (s, c, files) (xgboost_pipeline platform) ->
  (c = ct_models_MLModel \/ c = MLModel_save) ->
  files = [XGBoost.artifact].
Proof.
  unfold xgboost_pipeline.
  destruct (PyStr.eqb platform (py "darwin")); cbn [app In];
    intros H Hc; repeat (destruct H as [H|H]); try contradiction;
    injection H as <- <- <-; destruct Hc; try discriminate; reflexivity.
Qed.

Lemma pytorch_pipeline_files (platform : str) (s : Pipeline.stage)
    (c : callee) (files : list str) :
  In (s, c, files) (pytorch_pipeline platform) ->
  (c = ct_models_MLModel \/ c = MLModel_save) ->
  files = [PyTorch.artifact].
Proof.
  unfold pytorch_pipeline.
  destruct (PyStr.eqb platform (py "darwin")); cbn [app In];
    intros H Hc; repeat (destruct H as [H|H]); try contradiction;
    injection H as <- <- <-; destruct Hc; try discriminate; reflexivity.
Qed.

(** C8, as the code has it.  Every run of the XGBoost notebook performs
    its pipeline operations in one fixed order: load the training file,
    load the test file, train, convert, save the artifact
    [machine.mlmodel] and, on macOS only, reload [machine.mlmodel] and
    predict.  Every run of the PyTorch notebook performs them in the
    order: build the model ([torch.hub.load], then [Sequential]), load
    data (the label download, then the image [Dog.jpg]), convert, save
    the artifact [MobileNet_v2_torch.mlmodel] and, on macOS only, reload
    that file and predict.  A run performs a leading part of its
    sequence, each operation once and every one but the last with
    success, and a run that completes performs all of it with success.
    So an operation of one step happens only after an operation of every
    earlier step has succeeded, and the reload reads the artifact file
    only after a save has succeeded in writing that same file. *)
Theorem C8_pipeline_order
    (W : Type) (h : handler W) (w : W) (platform : str) :
  let rx := run h (XGBoost.notebook platform) w in
  let rp := run h (PyTorch.notebook platform) w in
  (follows_pipeline (xgboost_pipeline platform)
                    (trace_of rx) (outcome_of rx) /\
   Pipeline.in_order Pipeline.rank_spec (trace_of rx) /\
   reload_follows_save (py "machine.mlmodel") (trace_of rx)) /\
  (follows_pipeline (pytorch_pipeline platform)
                    (trace_of rp) (outcome_of rp) /\
   Pipeline.in_order Pipeline.rank_torch (trace_of rp) /\
   reload_follows_save (py "MobileNet_v2_torch.mlmodel") (trace_of rp)).
Proof.
  intros rx rp.
  assert (Fx := all_runs_sound h _ _ (xgboost_pipeline_steps platform) w).
  assert (Fp := all_runs_sound h _ _ (pytorch_pipeline_steps platform) w).
  fold rx in Fx. fold rp in Fp.
  assert (Hx : Pipeline.in_order Pipeline.rank_spec (trace_of rx)).
  { apply monitor_sound; [exact rank_spec_inj|].
    exact (all_runs_sound h _ _ (xgboost_monitor platform) w). }
  assert (Hp : Pipeline.in_order Pipeline.rank_torch (trace_of rp)).
  { apply monitor_sound; [exact rank_torch_inj|].
    exact (all_runs_sound h _ _ (pytorch_monitor platform) w). }
  assert (Rx : (Pipeline.rank_spec Pipeline.Save
                < Pipeline.rank_spec Pipeline.Reload)%nat) by (simpl; lia).
  assert (Rp : (Pipeline.rank_torch Pipeline.Save
                < Pipeline.rank_torch Pipeline.Reload)%nat) by (simpl; lia).
  split; (split; [assumption|]; split; [assumption|]).
  - exact (@reload_after_save _ Pipeline.rank_spec _ XGBoost.artifact _ _
             Fx Hx Rx
             (fun files Hin =>
                @xgboost_pipeline_files _ _ _ _ Hin (or_introl eq_refl))
             (fun files Hin =>
                @xgboost_pipeline_files _ _ _ _ Hin (or_intror eq_refl))).
  - exact (@reload_after_save _ Pipeline.rank_torch _ PyTorch.artifact _ _
             Fp Hp Rp
             (fun files Hin =>
                @pytorch_pipeline_files _ _ _ _ Hin (or_introl eq_refl))
             (fun files Hin =>
                @pytorch_pipeline_files _ _ _ _ Hin (or_intror eq_refl))).
Qed.

(** C8 as stated fails for the PyTorch notebook: its run in the demo
    directory builds the model (its fourth operation, [torch.hub.load])
    before any data has been loaded, so the trace is not in the order
    that puts loading data first. *)
Lemma C8_counterexample :
  ~ Pipeline.in_order Pipeline.rank_spec
      (trace_of (run Demo.handle (PyTorch.notebook Demo.linux) Demo.start)).
Proof.
  intros H.
  set (tr := trace_of
               (run Demo.handle (PyTorch.notebook Demo.linux) Demo.start))
    in H.
  set (build := nth 3 tr (Ev (Import []) (inl tt))).
  assert (Hsplit : tr = firstn 3 tr ++ build :: skipn 4 tr)
    by (vm_compute; reflexivity).
  assert (Hbuild : callee_of build = Some torch_hub_load
                   /\ Pipeline.stage_of (ev_op build)
                      = Some Pipeline.BuildModel)
    by (vm_compute; split; reflexivity).
  assert (Hnone : forallb (fun e => negb (Pipeline.done_step Pipeline.LoadData e))
                          (firstn 3 tr) = true)
    by (vm_compute; reflexivity).
  destruct (H (firstn 3 tr) build (skipn 4 tr)
              Pipeline.BuildModel Pipeline.LoadData Hsplit (proj2 Hbuild))
    as [e' [Hin Hd]]; [simpl; lia|].
  rewrite forallb_forall in Hnone. specialize (Hnone e' Hin).
  rewrite Hd in Hnone. discriminate Hnone.
Qed.

(* ================================================================== *)
(** ** Failures propagate *)

Section FailureFacts.
Import Pipeline.






End FailureFacts.






(** Without the feature-map file the XGBoost notebook stops at the first
    operation that needs it, the tree plot, and ends with that error. *)
Example missing_featmap_propagates :
  let r := run Demo.handle (XGBoost.notebook Demo.linux)
               Demo.start_without_featmap in
  outcome_of r = Raised (External 2) /\
  List.map callee_of (skipn 5 (trace_of r)) = [Some xgb_plot_tree] /\
  List.map ev_ok (trace_of r) = [true; true; true; true; true; false].
Proof. vm_compute. repeat split. Qed.

(* ================================================================== *)
(** ** The platform guard of the last cell *)

Lemma report_no_prediction e :
  is_report e = true -> no_prediction e = true.
Proof.
  destruct e as [o r].
  unfold is_report, no_prediction, is_reload, is_coreml_predict, callee_of.
  simpl.
  destruct o as [| c ? ? | | | | | | |]; try discriminate; try reflexivity.
  destruct c; try discriminate; reflexivity.
Qed.

Lemma reported_no_prediction tr :
  reported tr -> forallb no_prediction tr = true.
Proof.
  induction 1 as [|e tr [Hr _] _ IH]; [reflexivity|].
  cbn [forallb]. now rewrite IH, (report_no_prediction _ Hr).
Qed.

Ltac guard_norm :=
  cbn [forallb existsb no_prediction done_call is_reload is_coreml_predict
       callee_of ev_op ev_ok ev_res negb andb orb];
  rewrite ?forallb_app, ?existsb_app;
  try match goal with
  | H : reported ?tr |- _ => rewrite ?(reported_no_prediction H)
  end;
  try match goal with
  | H : is_report ?e = true |- _ =>
      cbn [forallb]; rewrite ?(report_no_prediction _ H)
  end;
  cbn [forallb existsb no_prediction done_call is_reload is_coreml_predict
       callee_of ev_op ev_ok ev_res negb andb orb].

Lemma xgboost_guard (platform : str) :
  all_runs (XGBoost.notebook platform) (fun tr out =>
    if PyStr.eqb platform (py "darwin") then
      completed out = true ->
      existsb (done_call is_reload) tr = true /\
      existsb (done_call is_coreml_predict) tr = true
    else
      forallb no_prediction tr = true /\
      forall v, out = Returned v -> v = VStr XGBoost.placeholder).
Proof.
  wp_start. destruct (PyStr.eqb platform (py "darwin")); step_cbn.
  all: repeat wp_step.
  all: try (intros Hc; try discriminate Hc).
  all: guard_norm.
  all: rewrite ?orb_true_r.
  all: split; try reflexivity.
  all: intros v Hv; try discriminate Hv.
  all: injection Hv as <-; reflexivity.
Qed.

Lemma pytorch_guard (platform : str) :
  all_runs (PyTorch.notebook platform) (fun tr out =>
    if PyStr.eqb platform (py "darwin") then
      completed out = true ->
      existsb (done_call is_reload) tr = true /\
      existsb (done_call is_coreml_predict) tr = true
    else
      forallb no_prediction tr = true /\
      forall v, out = Returned v -> v = VStr PyTorch.placeholder).
Proof.
  wp_start. destruct (PyStr.eqb platform (py "darwin")); step_cbn.
  all: repeat (wp_step || wp_loop).
  all: try (intros Hc; try discriminate Hc).
  all: guard_norm.
  all: rewrite ?orb_true_r.
  all: split; try reflexivity.
  all: intros v Hv; try discriminate Hv.
  all: injection Hv as <-; reflexivity.
Qed.

Lemma xgboost_predict_on_macos (example : PyList.dict pyval) :
  all_runs (XGBoost.cell_predict (py "darwin") example) (fun tr out =>
    reloads_then_predicts XGBoost.artifact (VDict example) tr).
Proof.
  unfold XGBoost.cell_predict.
  replace (PyStr.eqb (py "darwin") (py "darwin")) with true by reflexivity.
  step_cbn. repeat wp_step.
  all: unfold reloads_then_predicts.
  all: do 2 eexists; split; [reflexivity|]; split; [reflexivity|].
  all: cbn [obj_returned]; try reflexivity.
  all: do 2 eexists; split; reflexivity.
Qed.

Lemma pytorch_predict_on_macos (img : obj) :
  all_runs (PyTorch.cell_predict (py "darwin") img) (fun tr out =>
    reloads_then_predicts PyTorch.artifact
      (VDict [(py "input.1", VObj img)]) tr).
Proof.
  unfold PyTorch.cell_predict.
  replace (PyStr.eqb (py "darwin") (py "darwin")) with true by reflexivity.
  step_cbn. repeat wp_step.
  all: unfold reloads_then_predicts.
  all: do 2 eexists; split; [reflexivity|]; split; [reflexivity|].
  all: cbn [obj_returned]; try reflexivity.
  all: do 2 eexists; split; reflexivity.
Qed.

(** C2.  Off macOS ([sys.platform] other than 'darwin') the last cell of
    each notebook asks nothing of its environment (no model load, no
    predict call) and binds [prediction] to the placeholder string; the
    whole run then contains no load of a CoreML model and no CoreML
    predict call.  On macOS the cell first loads the model from the
    artifact file and, with the model it gets, calls predict on the input
    record (the example dict, or the image under 'input.1'); a run of the
    notebook that completes has made both calls. *)
Theorem C2_platform_guard
    (W : Type) (h : handler W) (w : W) (platform : str)
    (example : PyList.dict pyval) (img : obj) :
  let placeholder := VStr (py "Skipping prediction on non-macOS system") in
  let x := run h (XGBoost.notebook platform) w in
  let p := run h (PyTorch.notebook platform) w in
  (platform <> py "darwin" ->
     run h (XGBoost.cell_predict platform example) w
       = ([], Returned placeholder, w) /\
     run h (PyTorch.cell_predict platform img) w
       = ([], Returned placeholder, w) /\
     forallb no_prediction (trace_of x) = true /\
     forallb no_prediction (trace_of p) = true /\
     (forall v, outcome_of x = Returned v -> v = placeholder) /\
     (forall v, outcome_of p = Returned v -> v = placeholder)) /\
  (platform = py "darwin" ->
     reloads_then_predicts (py "machine.mlmodel") (VDict example)
       (trace_of (run h (XGBoost.cell_predict platform example) w)) /\
     reloads_then_predicts (py "MobileNet_v2_torch.mlmodel")
       (VDict [(py "input.1", VObj img)])
       (trace_of (run h (PyTorch.cell_predict platform img) w)) /\
     (completed (outcome_of x) = true ->
        existsb (done_call is_reload) (trace_of x) = true /\
        existsb (done_call is_coreml_predict) (trace_of x) = true) /\
     (completed (outcome_of p) = true ->
        existsb (done_call is_reload) (trace_of p) = true /\
        existsb (done_call is_coreml_predict) (trace_of p) = true)).
Proof.
  intros placeholder x p.
  pose proof (all_runs_sound h _ _ (xgboost_guard platform) w) as Hx.
  pose proof (all_runs_sound h _ _ (pytorch_guard platform) w) as Hp.
  fold x in Hx. fold p in Hp. cbv beta in Hx, Hp.
  split.
  - intros Hne. apply PyStrFacts.eqb_neq in Hne.
    rewrite Hne in Hx, Hp.
    unfold XGBoost.cell_predict, PyTorch.cell_predict. rewrite Hne.
    split; [reflexivity|]. split; [reflexivity|].
    destruct Hx as [Hx1 Hx2]. destruct Hp as [Hp1 Hp2]. auto.
  - intros ->.
    replace (PyStr.eqb (py "darwin") (py "darwin")) with true in Hx, Hp
      by reflexivity.
    split; [exact (all_runs_sound h _ _ (xgboost_predict_on_macos example) w)|].
    split; [exact (all_runs_sound h _ _ (pytorch_predict_on_macos img) w)|].
    split; assumption.
Qed.

(** The two platforms in the demo directory. *)
Example platform_guard_demo :
  let off := run Demo.handle (XGBoost.notebook Demo.linux) Demo.start in
  let on := run Demo.handle (XGBoost.notebook Demo.darwin) Demo.start in
  outcome_of off = Returned (VStr XGBoost.placeholder) /\
  existsb is_reload (trace_of off) = false /\
  existsb is_coreml_predict (trace_of off) = false /\
  List.map callee_of (skipn 27 (trace_of on))
    = [Some ct_models_MLModel; Some MLModel_predict; None] /\
  completed (outcome_of on) = true.
Proof. vm_compute. repeat split. Qed.

(* ================================================================== *)
(** ** More on the example dictionary *)

Section ExampleKeys.
Import XGBoost PyList PyListFacts.

Lemma keys_setitem_iff {V} (d : dict V) name v k :
  In k (keys (setitem d name v)) <-> In k (keys d) \/ k = name.
Proof.
  induction d as [|[k' v'] d IH]; simpl.
  - intuition.
  - destruct (PyStr.eqb k' name) eqn:E; simpl.
    + apply PyStrFacts.eqb_eq in E. subst k'. intuition.
    + unfold keys in IH. rewrite IH. intuition.
Qed.

Lemma example_step_eq (d : dict pyval) (name : str) :
  example_step d name =
  if startswith name vendor then setitem d name (one_hot name) else d.
Proof.
  unfold example_step, one_hot, vendor_ibm, vendor.
  destruct (PyStr.eqb name (py "vendor:ibm")) eqn:E.
  - apply PyStrFacts.eqb_eq in E. subst name. reflexivity.
  - destruct (startswith name (py "vendor")); reflexivity.
Qed.

Lemma keys_example_loop names (d : dict pyval) k :
  In k (keys (example_loop names d)) <->
  In k (keys d) \/ (In k names /\ startswith k vendor = true).
Proof.
  revert d. induction names as [|name names IH]; intros d; simpl.
  - intuition.
  - rewrite IH, example_step_eq.
    destruct (startswith name vendor) eqn:E.
    + rewrite keys_setitem_iff. split.
      * intros [[H|H]|[H1 H2]]; auto. subst k. auto.
      * intros [H|[[H|H] H2]]; auto.
    + split.
      * intros [H|[H1 H2]]; auto.
      * intros [H|[[H|H] H2]]; auto. subst k. congruence.
Qed.

Lemma lookup_none_iff {V} (d : dict V) k :
  lookup d k = None <-> ~ In k (keys d).
Proof.
  induction d as [|[k' v'] d IH]; simpl.
  - intuition.
  - destruct (PyStr.eqb k' k) eqn:E.
    + apply PyStrFacts.eqb_eq in E. subst k'.
      split; [discriminate | intros H; exfalso; auto].
    + apply PyStrFacts.eqb_neq in E. unfold keys in IH. rewrite IH.
      intuition.
Qed.

Lemma literal_vendor_ok : vendor_ok example_literal.
Proof.
  intros k v Hk Hs. unfold example_literal in Hk.
  cbn [lookup] in Hk.
  repeat match type of Hk with
  | (if PyStr.eqb ?a k then _ else _) = _ =>
      destruct (PyStr.eqb a k) eqn:E;
      [apply PyStrFacts.eqb_eq in E; subst k; vm_compute in Hs;
       discriminate Hs|clear E]
  end. discriminate.
Qed.

Lemma literal_keys_nodup : NoDup (keys example_literal).
Proof. vm_compute. repeat constructor; simpl; intuition discriminate. Qed.

End ExampleKeys.

(** X1.  The keys of the example dict after the loop are the six literal
    keys and the feature names that start with 'vendor', nothing else,
    each key once: a feature name that is neither gets no entry. *)
Theorem X1_example_keys (feature_names : list str) (k : str) :
  let example := XGBoost.cell_example feature_names in
  (In k (PyList.keys example) <->
     In k literal_keys \/
     (In k feature_names /\ startswith k (py "vendor") = true)) /\
  NoDup (PyList.keys example) /\
  literal_keys =
    [py "MYCT"; py "MMIN"; py "MMAX"; py "CACH"; py "CHMIN"; py "CHMAX"].
Proof.
  intros example. split; [|split; [|reflexivity]].
  - apply keys_example_loop.
  - apply (example_loop_inv feature_names literal_vendor_ok
             literal_keys_nodup).
Qed.

(** X2.  The entry of 'vendor:ibm' exists exactly when 'vendor:ibm' is one
    of the feature names, and then holds 1; when it is not a feature name
    the key is missing and every vendor entry of the example holds 0. *)
Theorem X2_example_ibm_entry (feature_names : list str) :
  let example := XGBoost.cell_example feature_names in
  (In (py "vendor:ibm") feature_names ->
     PyList.lookup example (py "vendor:ibm") = Some (VInt 1)) /\
  (~ In (py "vendor:ibm") feature_names ->
     PyList.lookup example (py "vendor:ibm") = None /\
     forall k v, In (k, v) example ->
       startswith k (py "vendor") = true -> v = VInt 0).
Proof.
  intros example.
  destruct (example_loop_inv feature_names literal_vendor_ok
              literal_keys_nodup) as [Hok [Hnd _]].
  fold (XGBoost.cell_example feature_names) in Hok, Hnd.
  fold example in Hok, Hnd.
  pose proof (keys_example_loop feature_names XGBoost.example_literal)
    as Hkeys.
  fold (XGBoost.cell_example feature_names) in Hkeys. fold example in Hkeys.
  split.
  - intros Hin.
    destruct (PyList.lookup example (py "vendor:ibm")) as [v|] eqn:E.
    + rewrite (Hok _ _ E); reflexivity.
    + apply lookup_none_iff in E. exfalso. apply E. apply Hkeys.
      right. split; [exact Hin | reflexivity].
  - intros Hnot. split.
    + apply lookup_none_iff. intros Hk. apply Hkeys in Hk.
      destruct Hk as [Hk|[Hk _]]; [|contradiction].
      vm_compute in Hk. intuition discriminate.
    + intros k v Hin Hs.
      rewrite (Hok k v (lookup_in _ _ _ Hnd Hin) Hs).
      unfold one_hot. destruct (PyStr.eqb k vendor_ibm) eqn:E; [|reflexivity].
      apply PyStrFacts.eqb_eq in E. subst k. exfalso.
      assert (Hk : In vendor_ibm (PyList.keys example)).
      { unfold PyList.keys. change vendor_ibm with (fst (vendor_ibm, v)).
        now apply in_map. }
      apply Hkeys in Hk. destruct Hk as [Hk|[Hk _]]; [|contradiction].
      vm_compute in Hk. intuition discriminate.
Qed.

(* ================================================================== *)
(** ** More on the feature names and the class labels *)

Lemma existsb_rev {A} (f : A -> bool) (l : list A) :
  existsb f (rev l) = existsb f l.
Proof.
  induction l as [|a l IH]; [reflexivity|].
  simpl. rewrite existsb_app, IH. simpl.
  rewrite orb_false_r. apply orb_comm.
Qed.

Lemma rev_is_token (cur : str) :
  cur <> [] -> existsb isspace cur = false -> is_token (rev cur).
Proof.
  intros Hne Hs. split.
  - intros H. apply Hne. rewrite <- (rev_involutive cur), H. reflexivity.
  - now rewrite existsb_rev.
Qed.

Lemma split_from_tokens (s cur : str) :
  existsb isspace cur = false -> Forall is_token (split_from cur s).
Proof.
  revert cur. induction s as [|c s IH]; intros cur Hcur; simpl.
  - destruct cur as [|a cur]; constructor; [|constructor].
    apply rev_is_token; [discriminate | assumption].
  - destruct (isspace c) eqn:Hc.
    + destruct cur as [|a cur]; [now apply IH|].
      constructor; [|now apply IH].
      apply rev_is_token; [discriminate | assumption].
    + apply IH. simpl. now rewrite Hc.
Qed.

Lemma second_token_is_token (line : str) :
  two_tokens line -> is_token (second_token line).
Proof.
  intros H. unfold second_token.
  pose proof (split_from_tokens line [] eq_refl) as Hall.
  fold (split line) in Hall. rewrite Forall_forall in Hall.
  apply Hall. apply nth_In. exact H.
Qed.

(** X3.  When the feature-name loop succeeds it yields one name per line,
    and every name is a token: not empty and free of whitespace, so no
    name carries the newline that ends its line. *)
Theorem X3_feature_names_are_tokens (lines names : list str) :
  XGBoost.feature_names_loop lines [] = inl names ->
  List.length names = List.length lines /\ Forall is_token names.
Proof.
  intros H.
  assert (Hall : Forall two_tokens lines)
    by (apply (proj1 (feature_names_loop_spec lines)); eauto).
  rewrite (feature_names_loop_ok [] Hall) in H. injection H as <-.
  cbn [app]. split; [apply length_map|].
  apply Forall_map. revert Hall. apply Forall_impl.
  exact second_token_is_token.
Qed.

Lemma X3_feature_names_witness :
  XGBoost.feature_names_loop Demo.featmap [] =
    inl [py "vendor:hp"; py "vendor:ibm"; py "MYCT"; py "MMIN"; py "MMAX";
         py "CACH"; py "CHMIN"; py "CHMAX"] /\
  Forall is_token
    [py "vendor:hp"; py "vendor:ibm"; py "MYCT"; py "MMIN"; py "MMAX";
     py "CACH"; py "CHMIN"; py "CHMAX"].
Proof.
  assert (H : XGBoost.feature_names_loop Demo.featmap [] =
    inl [py "vendor:hp"; py "vendor:ibm"; py "MYCT"; py "MMIN"; py "MMAX";
         py "CACH"; py "CHMIN"; py "CHMAX"]) by (vm_compute; reflexivity).
  split; [exact H|].
  exact (proj2 (X3_feature_names_are_tokens Demo.featmap H)).
Defined.

(** X4.  Once the class-label cell has succeeded, the label at index [i]
    is line [i + 1] of the downloaded text for [0 <= i < 1000], a
    negative index from -1000 on counts from the end, and every other
    index has no label. *)
Theorem X4_label_index_shift (text : str) (labels : list str) (i : Z) :
  PyTorch.class_labels_of text = inl labels ->
  PyList.getitem labels i =
    if (0 <=? i) && (i <? 1000) then
      nth_error (splitlines text) (S (Z.to_nat i))
    else if (-1000 <=? i) && (i <? 0) then
      nth_error (splitlines text) (Z.to_nat (i + 1001))
    else None.
Proof.
  intros H.
  destruct (proj1 (proj2 (class_labels_spec text)) labels H)
    as [Hlen [first Hsplit]].
  unfold PyList.getitem. rewrite Hlen, Hsplit.
  change (Z.of_nat 1000) with 1000.
  destruct ((0 <=? i) && (i <? 1000)) eqn:E1; [reflexivity|].
  destruct ((-1000 <=? i) && (i <? 0)) eqn:E2.
  - apply andb_true_iff in E2. destruct E2 as [Ha Hb].
    apply Z.leb_le in Ha. apply Z.ltb_lt in Hb.
    replace ((i <? 0) && (0 <=? i + 1000)) with true.
    + replace (Z.to_nat (i + 1001)) with (S (Z.to_nat (i + 1000))) by lia.
      reflexivity.
    + symmetry. apply andb_true_iff. split.
      * now apply Z.ltb_lt.
      * apply Z.leb_le. lia.
  - replace ((i <? 0) && (0 <=? i + 1000)) with false; [reflexivity|].
    symmetry. apply andb_false_iff.
    apply andb_false_iff in E2. destruct E2 as [E2|E2].
    + right. apply Z.leb_gt. apply Z.leb_gt in E2. lia.
    + left. exact E2.
Qed.

Lemma X4_label_index_witness :
  PyList.getitem (List.repeat (py "tench") 1000) 999 =
    nth_error (splitlines Demo.labels) 1000 /\
  PyList.getitem (List.repeat (py "tench") 1000) 1000 = None.
Proof.
  assert (H : PyTorch.class_labels_of Demo.labels
              = inl (List.repeat (py "tench") 1000))
    by (vm_compute; reflexivity).
  split.
  - exact (X4_label_index_shift Demo.labels 999 H).
  - exact (X4_label_index_shift Demo.labels 1000 H).
Defined.

(* ================================================================== *)
(** ** Where the arguments of the XGBoost calls come from *)

Ltac in_solve :=
  repeat first [ apply in_eq | apply in_cons | apply in_or_app; right ].

(** Find, among the events of the trace in the goal, one that satisfies
    the equations asked of it. *)
Ltac find_event :=
  lazymatch goal with
  | |- exists e, In e ?tr /\ _ =>
      let rec go l :=
        lazymatch l with
        | ?a :: ?l' =>
            first [ exists a; split;
                    [ | repeat split;
                        first
                          [ reflexivity
                          | lazymatch goal with
                            | |- option_map _ _ = _ =>
                                cbn [option_map text_decoded];
                                f_equal; eassumption
                            end ] ];
                    [ in_solve ]
                  | go l' ]
        | ?t ++ ?l' => go l'
        end in
      go tr
  end.

Ltac flow_solve :=
  first
    [ exact I
    | repeat (match goal with
              | |- exists _, _ => eexists
              | |- _ /\ _ => split
              end);
      [ idtac .. | reflexivity ];
      unfold produced, returned_by, converted_with; find_event ].

Lemma xgboost_flows (platform : str) :
  all_runs (XGBoost.notebook platform) (fun tr out =>
    forall e c, In e tr -> callee_of e = Some c -> xgboost_flow c e tr).
Proof.
  wp_run.
  all: intros ev c Hin Hc.
  all: in_cases Hin; subst ev; try discriminate Hc.
  all: injection Hc as <-; cbn [xgboost_flow]; flow_solve.
Qed.

(** X7.  In every run of the XGBoost notebook, the training call, the
    accuracy prediction and the label read all work on the matrix loaded
    from the training file: the model is scored on the data it was
    trained on. *)
Theorem X7_xgboost_training_data_flow
    (W : Type) (h : handler W) (w : W) (platform : str) (e : event) :
  let tr := trace_of (run h (XGBoost.notebook platform) w) in
  let dtrain_of :=
    produced (LibCall xgb_DMatrix [VStr (py "machine.txt.train")] []) in
  In e tr ->
  (callee_of e = Some xgb_train ->
     exists d, dtrain_of d tr /\
       ev_op e = LibCall xgb_train [VDict XGBoost.param; VObj d]
                         [(py "num_boost_round", VInt 2)]) /\
  (callee_of e = Some Booster_predict ->
     exists b d, returned_by xgb_train b tr /\ dtrain_of d tr /\
       ev_op e = LibCall Booster_predict [VObj b; VObj d] []) /\
  (callee_of e = Some DMatrix_get_label ->
     exists d, dtrain_of d tr /\
       ev_op e = LibCall DMatrix_get_label [VObj d] []).
Proof.
  intros tr dtrain_of Hin.
  pose proof (all_runs_sound h _ _ (xgboost_flows platform) w e) as H.
  fold tr in H.
  repeat split; intros Hc; exact (H _ Hin Hc).
Qed.

Lemma X7_training_data_flow_witness :
  let tr := trace_of
              (run Demo.handle (XGBoost.notebook Demo.linux) Demo.start) in
  let e := nth 9 tr (Ev (Import []) (inl tt)) in
  callee_of e = Some Booster_predict /\
  exists b d,
    returned_by xgb_train b tr /\
    produced (LibCall xgb_DMatrix [VStr (py "machine.txt.train")] []) d tr /\
    ev_op e = LibCall Booster_predict [VObj b; VObj d] [].
Proof.
  intros tr e.
  assert (Hc : callee_of e = Some Booster_predict)
    by (vm_compute; reflexivity).
  split; [exact Hc|].
  refine (proj1 (proj2 (@X7_xgboost_training_data_flow
            Demo.world Demo.handle Demo.start Demo.linux e _)) Hc).
  apply nth_In. vm_compute. lia.
Defined.

(** X8.  In every run of the XGBoost notebook the model travels unchanged
    through the pipeline: the tree plot, the accuracy prediction and the
    conversion receive the booster that [xgb.train] returned, and the
    model written to 'machine.mlmodel' is the one the conversion
    returned. *)
Theorem X8_xgboost_model_flow
    (W : Type) (h : handler W) (w : W) (platform : str) (e : event) :
  let tr := trace_of (run h (XGBoost.notebook platform) w) in
  In e tr ->
  (callee_of e = Some xgb_plot_tree ->
     exists b, returned_by xgb_train b tr /\
       ev_op e = LibCall xgb_plot_tree
                         [VObj b; VStr (py "machine.featmap.txt")] []) /\
  (callee_of e = Some Booster_predict ->
     exists b, returned_by xgb_train b tr /\
       nth_error (args_of e) 0 = Some (VObj b)) /\
  (callee_of e = Some ct_converters_xgboost_convert ->
     exists b, returned_by xgb_train b tr /\ args_of e = [VObj b]) /\
  (callee_of e = Some MLModel_save ->
     exists m, returned_by ct_converters_xgboost_convert m tr /\
       ev_op e = LibCall MLModel_save
                         [VObj m; VStr (py "machine.mlmodel")] []).
Proof.
  intros tr Hin.
  pose proof (all_runs_sound h _ _ (xgboost_flows platform) w e) as H.
  fold tr in H.
  split; [intros Hc; exact (H _ Hin Hc)|].
  split; [|split; intros Hc; exact (H _ Hin Hc)].
  intros Hc. destruct (H _ Hin Hc) as [b [d [Hb [_ He]]]].
  exists b. split; [exact Hb|]. unfold args_of. rewrite He. reflexivity.
Qed.

Lemma X8_model_flow_witness :
  let tr := trace_of
              (run Demo.handle (XGBoost.notebook Demo.linux) Demo.start) in
  let e := nth 26 tr (Ev (Import []) (inl tt)) in
  callee_of e = Some MLModel_save /\
  exists m,
    returned_by ct_converters_xgboost_convert m tr /\
    ev_op e = LibCall MLModel_save [VObj m; VStr (py "machine.mlmodel")] [].
Proof.
  intros tr e.
  assert (Hc : callee_of e = Some MLModel_save)
    by (vm_compute; reflexivity).
  split; [exact Hc|].
  refine (proj2 (proj2 (proj2 (@X8_xgboost_model_flow
            Demo.world Demo.handle Demo.start Demo.linux e _))) Hc).
  apply nth_In. vm_compute. lia.
Defined.

(** X9.  On macOS the record given to the CoreML predict call is the
    example dict built from the very feature names the conversion call
    received, and the model it is called on is the one just loaded: the
    example has an entry for every vendor feature the converted model
    declares. *)
Theorem X9_predict_input_matches_conversion
    (W : Type) (h : handler W) (w : W) (platform : str) (e : event) :
  let tr := trace_of (run h (XGBoost.notebook platform) w) in
  In e tr ->
  callee_of e = Some MLModel_predict ->
  exists m names,
    returned_by ct_models_MLModel m tr /\
    converted_with names tr /\
    ev_op e = LibCall MLModel_predict
                      [VObj m; VDict (XGBoost.cell_example names)] [] /\
    forall name, In name names -> startswith name (py "vendor") = true ->
      In name (PyList.keys (XGBoost.cell_example names)).
Proof.
  intros tr Hin Hc.
  destruct (all_runs_sound h _ _ (xgboost_flows platform) w e _ Hin Hc)
    as [m [names [Hm [Hn He]]]].
  exists m, names. repeat split; try assumption.
  intros name Hname Hv. apply keys_example_loop. auto.
Qed.

Lemma X9_predict_input_witness :
  let tr := trace_of
              (run Demo.handle (XGBoost.notebook Demo.darwin) Demo.start) in
  let e := nth 28 tr (Ev (Import []) (inl tt)) in
  exists m names,
    returned_by ct_models_MLModel m tr /\
    converted_with names tr /\
    ev_op e = LibCall MLModel_predict
                      [VObj m; VDict (XGBoost.cell_example names)] [] /\
    forall name, In name names -> startswith name (py "vendor") = true ->
      In name (PyList.keys (XGBoost.cell_example names)).
Proof.
  intros tr e.
  refine (@X9_predict_input_matches_conversion
            Demo.world Demo.handle Demo.start Demo.darwin e _ _).
  - apply nth_In. vm_compute. lia.
  - vm_compute. reflexivity.
Defined.

(* ================================================================== *)
(** ** Where the arguments of the PyTorch calls come from *)

Lemma report_callee e :
  is_report e = true ->
  callee_of e = Some ndarray_getitem \/ callee_of e = None.
Proof.
  destruct e as [o r]. unfold is_report, callee_of. simpl.
  destruct o as [| c ? ? | | | | | | |]; try discriminate; auto.
  destruct c; try discriminate; auto.
Qed.

Lemma reported_callee tr e :
  reported tr -> In e tr ->
  callee_of e = Some ndarray_getitem \/ callee_of e = None.
Proof.
  intros H Hin. unfold reported in H. rewrite Forall_forall in H.
  apply report_callee. apply (H e Hin).
Qed.

Lemma report_text_decoded e : is_report e = true -> text_decoded e = None.
Proof.
  destruct e as [o r]. unfold is_report. simpl.
  destruct o as [| c ? ? | | | | | | |]; try discriminate; reflexivity.
Qed.

Lemma reported_text_decoded tr e :
  reported tr -> In e tr -> text_decoded e = None.
Proof.
  intros H Hin. unfold reported in H. rewrite Forall_forall in H.
  apply report_text_decoded. apply (H e Hin).
Qed.

(** Going through the events of a trace that holds a stretch of the
    top-five loop. *)
Ltac in_cases_seg H :=
  cbn [In] in H;
  repeat match type of H with
  | _ \/ _ => destruct H as [H|H]
  | False => contradiction
  | In _ (_ ++ _) => apply in_app_or in H; cbn [In] in H
  end.

Ltac report_callee_case Hin Hc :=
  match goal with
  | Hrep : reported ?tr |- _ =>
      match type of Hin with
      | In ?ev tr =>
          destruct (@reported_callee _ _ Hrep Hin) as [Hq|Hq];
          rewrite Hq in Hc; [injection Hc as <- | discriminate Hc]
      end
  | Hev : is_report ?ev = true |- _ =>
      match type of Hc with
      | callee_of ev = _ =>
          destruct (@report_callee _ Hev) as [Hq|Hq];
          rewrite Hq in Hc; [injection Hc as <- | discriminate Hc]
      end
  end.

Ltac flow_solve_torch :=
  first
    [ exact I
    | repeat (match goal with
              | |- exists _, _ => eexists
              | |- _ /\ _ => split
              end);
      [ idtac .. | reflexivity ];
      unfold produced, returned_by, labels_decoded; find_event ].

Lemma pytorch_flows (platform : str) :
  all_runs (PyTorch.notebook platform) (fun tr out =>
    forall e c, In e tr -> callee_of e = Some c -> pytorch_flow c e tr).
Proof.
  wp_full.
  all: intros evt c Hin Hc.
  all: in_cases_seg Hin.
  all: try (subst evt; try discriminate Hc;
            first [ injection Hc as <- | report_callee_case Hin Hc ];
            cbn [pytorch_flow]; flow_solve_torch).
  all: report_callee_case Hin Hc; exact I.
Qed.

(** X10.  In every run of the PyTorch notebook the model travels unchanged
    through the pipeline: the network from [torch.hub.load] and the
    softmax are what [Sequential] wraps; [eval], the test inference and
    the trace work on that wrapped model; the conversion receives the
    traced model, and the model written to the artifact file is the one
    the conversion returned. *)
Theorem X10_pytorch_model_flow
    (W : Type) (h : handler W) (w : W) (platform : str) (e : event) :
  let tr := trace_of (run h (PyTorch.notebook platform) w) in
  In e tr ->
  (callee_of e = Some torch_nn_Sequential ->
     exists net softmax,
       returned_by torch_hub_load net tr /\
       returned_by torch_nn_Softmax softmax tr /\
       ev_op e = LibCall torch_nn_Sequential [VObj net; VObj softmax] []) /\
  (callee_of e = Some Module_eval ->
     exists t, returned_by torch_nn_Sequential t tr /\
       ev_op e = LibCall Module_eval [VObj t] []) /\
  (callee_of e = Some Module_call ->
     exists t batch,
       returned_by torch_nn_Sequential t tr /\
       returned_by Tensor_unsqueeze batch tr /\
       ev_op e = LibCall Module_call [VObj t; VObj batch] []) /\
  (callee_of e = Some torch_jit_trace ->
     exists t x,
       returned_by torch_nn_Sequential t tr /\
       returned_by torch_rand x tr /\
       ev_op e = LibCall torch_jit_trace [VObj t; VObj x] []) /\
  (callee_of e = Some ct_convert ->
     exists traced image_type config,
       returned_by torch_jit_trace traced tr /\
       returned_by ct_ImageType image_type tr /\
       returned_by ct_ClassifierConfig config tr /\
       ev_op e = LibCall ct_convert [VObj traced]
                   [ (py "inputs", VList [VObj image_type]);
                     (py "classifier_config", VObj config) ]) /\
  (callee_of e = Some MLModel_save ->
     exists m, returned_by ct_convert m tr /\
       ev_op e = LibCall MLModel_save
                   [VObj m; VStr (py "MobileNet_v2_torch.mlmodel")] []).
Proof.
  intros tr Hin.
  pose proof (all_runs_sound h _ _ (pytorch_flows platform) w e) as H.
  fold tr in H.
  repeat split; intros Hc; exact (H _ Hin Hc).
Qed.

Lemma X10_model_flow_witness :
  let tr := trace_of
              (run Demo.handle (PyTorch.notebook Demo.linux) Demo.start) in
  let e := nth 49 tr (Ev (Import []) (inl tt)) in
  callee_of e = Some ct_convert /\
  exists traced image_type config,
    returned_by torch_jit_trace traced tr /\
    returned_by ct_ImageType image_type tr /\
    returned_by ct_ClassifierConfig config tr /\
    ev_op e = LibCall ct_convert [VObj traced]
                [ (py "inputs", VList [VObj image_type]);
                  (py "classifier_config", VObj config) ].
Proof.
  intros tr e.
  assert (Hc : callee_of e = Some ct_convert) by (vm_compute; reflexivity).
  split; [exact Hc|].
  refine (proj1 (proj2 (proj2 (proj2 (proj2 (@X10_pytorch_model_flow
            Demo.world Demo.handle Demo.start Demo.linux e _))))) Hc).
  apply nth_In. vm_compute. lia.
Defined.

(** X11.  In every run of the PyTorch notebook one image serves both
    models: the image returned by [resize] (called with size 224 by 224
    on the opened file) is what the PyTorch preprocessing receives and,
    on macOS, what the CoreML predict call receives under 'input.1', on
    the model just loaded. *)
Theorem X11_pytorch_image_flow
    (W : Type) (h : handler W) (w : W) (platform : str) (e : event) :
  let tr := trace_of (run h (PyTorch.notebook platform) w) in
  In e tr ->
  (callee_of e = Some Image_resize ->
     exists opened, returned_by PIL_Image_open opened tr /\
       ev_op e = LibCall Image_resize
                   [VObj opened; VTuple [VInt 224; VInt 224]] []) /\
  (callee_of e = Some Compose_call ->
     exists preprocess img,
       returned_by transforms_Compose preprocess tr /\
       returned_by Image_resize img tr /\
       ev_op e = LibCall Compose_call [VObj preprocess; VObj img] []) /\
  (callee_of e = Some MLModel_predict ->
     exists m img,
       returned_by ct_models_MLModel m tr /\
       returned_by Image_resize img tr /\
       ev_op e = LibCall MLModel_predict
                   [VObj m; VDict [(py "input.1", VObj img)]] []).
Proof.
  intros tr Hin.
  pose proof (all_runs_sound h _ _ (pytorch_flows platform) w e) as H.
  fold tr in H.
  repeat split; intros Hc; exact (H _ Hin Hc).
Qed.

Lemma X11_image_flow_witness :
  let tr := trace_of
              (run Demo.handle (PyTorch.notebook Demo.darwin) Demo.start) in
  let e := nth 53 tr (Ev (Import []) (inl tt)) in
  callee_of e = Some MLModel_predict /\
  exists m img,
    returned_by ct_models_MLModel m tr /\
    returned_by Image_resize img tr /\
    ev_op e = LibCall MLModel_predict
                [VObj m; VDict [(py "input.1", VObj img)]] [].
Proof.
  intros tr e.
  assert (Hc : callee_of e = Some MLModel_predict)
    by (vm_compute; reflexivity).
  split; [exact Hc|].
  refine (proj2 (proj2 (@X11_pytorch_image_flow
            Demo.world Demo.handle Demo.start Demo.darwin e _)) Hc).
  apply nth_In. vm_compute. lia.
Defined.

(** X12.  The class labels handed to [ct.ClassifierConfig] are exactly
    the list the label cell built: the lines of the downloaded text
    without the first, 1000 of them, in order. *)
Theorem X12_labels_reach_classifier_config
    (W : Type) (h : handler W) (w : W) (platform : str) (e : event) :
  let tr := trace_of (run h (PyTorch.notebook platform) w) in
  In e tr ->
  callee_of e = Some ct_ClassifierConfig ->
  exists labels text first e_t,
    In e_t tr /\ text_decoded e_t = Some text /\
    splitlines text = first :: labels /\
    List.length labels = 1000%nat /\
    ev_op e = LibCall ct_ClassifierConfig [VList (List.map VStr labels)] [].
Proof.
  intros tr Hin Hc.
  destruct (all_runs_sound h _ _ (pytorch_flows platform) w e _ Hin Hc)
    as [labels [[e_t [Hin_t Ht]] He]].
  destruct (text_decoded e_t) as [text|] eqn:Htext; [|discriminate Ht].
  cbn [option_map] in Ht. injection Ht as Ht.
  destruct (proj1 (proj2 (class_labels_spec text)) labels Ht)
    as [Hlen [first Hsplit]].
  exists labels, text, first, e_t. auto.
Qed.

Lemma X12_labels_witness :
  let tr := trace_of
              (run Demo.handle (PyTorch.notebook Demo.linux) Demo.start) in
  let e := nth 48 tr (Ev (Import []) (inl tt)) in
  exists labels text first e_t,
    In e_t tr /\ text_decoded e_t = Some text /\
    splitlines text = first :: labels /\
    List.length labels = 1000%nat /\
    ev_op e = LibCall ct_ClassifierConfig [VList (List.map VStr labels)] [].
Proof.
  intros tr e.
  refine (@X12_labels_reach_classifier_config
            Demo.world Demo.handle Demo.start Demo.linux e _ _).
  - apply nth_In. vm_compute. lia.
  - vm_compute. reflexivity.
Defined.

(* ================================================================== *)
(** ** The top-five loop, the [with] blocks and early stops *)

Lemma all_runs_weaken {A} (p : prog A)
    (Q Q' : list event -> outcome A -> Prop) :
  (forall tr out, Q tr out -> Q' tr out) -> all_runs p Q -> all_runs p Q'.
Proof.
  revert Q Q'. induction p as [a|e|o k IH]; simpl; intros Q Q' HQ Hp;
    [now apply HQ | now apply HQ |].
  intros r. eapply IH; [|apply Hp]. intros tr out; apply HQ.
Qed.

Lemma print_loop_run (labels : list str) (out : obj) (idxs : list Z) :
  all_runs (for_each idxs (PyTorch.print_top labels out))
           (loop_run labels out idxs).
Proof.
  induction idxs as [|i idxs IH].
  - simpl. constructor.
  - cbn [for_each]. apply all_runs_bind. unfold PyTorch.print_top.
    destruct (PyList.getitem labels i) as [label|] eqn:Hi.
    + step_cbn. intros [score|x]; step_cbn.
      * intros [[]|x]; step_cbn.
        -- eapply all_runs_weaken; [|exact IH].
           intros tr o Hrun. cbn [app].
           now apply loop_next.
        -- now apply loop_print_fails.
      * now apply loop_read_fails with (label := label).
    + simpl. now apply loop_no_label.
Qed.

(** What a run of the loop shows and reads: [k] labels shown, [k']
    scores asked for. *)
Lemma loop_run_summary labels out idxs tr o :
  loop_run labels out idxs tr o ->
  exists k k',
    (k <= k' <= S k)%nat /\ (k' <= List.length idxs)%nat /\
    shown tr = flat_map (label_at labels) (firstn k idxs) /\
    score_reads tr = firstn k' idxs /\
    Forall (in_range labels) (firstn k' idxs) /\
    (completed o = true -> k = List.length idxs) /\
    (Pipeline.last_failure tr = None ->
       o = Returned tt \/
       exists i, nth_error idxs k' = Some i /\
                 PyList.getitem labels i = None /\
                 o = Raised IndexError).
Proof.
  induction 1 as [ | i idxs Hi | i idxs label x Hi
                 | i idxs label score x Hi
                 | i idxs label score tr o Hi Hrun IH ].
  - exists 0%nat, 0%nat. cbn [List.length firstn flat_map].
    split; [lia|]. split; [lia|]. split; [reflexivity|].
    split; [reflexivity|]. split; [constructor|]. split; [reflexivity|].
    intros _. now left.
  - exists 0%nat, 0%nat. cbn [List.length firstn flat_map].
    split; [lia|]. split; [lia|]. split; [reflexivity|].
    split; [reflexivity|]. split; [constructor|]. split; [discriminate|].
    intros _. right. exists i. auto.
  - exists 0%nat, 1%nat. cbn [List.length firstn flat_map].
    split; [lia|]. split; [lia|]. split; [reflexivity|].
    split; [reflexivity|]. split.
    { constructor; [unfold in_range; congruence | constructor]. }
    split; discriminate.
  - exists 0%nat, 1%nat. cbn [List.length firstn flat_map].
    split; [lia|]. split; [lia|]. split; [reflexivity|].
    split; [reflexivity|]. split.
    { constructor; [unfold in_range; congruence | constructor]. }
    split; discriminate.
  - destruct IH as [k [k' [Hk [Hlen [Hs [Hr [Hin [Hc Hf]]]]]]]].
    exists (S k), (S k'). cbn [List.length firstn flat_map].
    split; [lia|]. split; [lia|]. split.
    { unfold shown in *. cbn [flat_map shown_of app]. rewrite Hs.
      unfold label_at at 2. rewrite Hi. reflexivity. }
    split.
    { unfold score_reads in *.
      cbn [flat_map score_read_of ev_op app]. now rewrite Hr. }
    split.
    { constructor; [unfold in_range; congruence | exact Hin]. }
    split; [intros H0; f_equal; auto|].
    intros Hnone. cbn [Pipeline.last_failure] in Hnone.
    destruct (Pipeline.last_failure tr); [discriminate Hnone|].
    destruct (Hf eq_refl) as [->|[j [Hj [Hg ->]]]]; [now left|].
    right. exists j. auto.
Qed.

(** X5.  Every run of the top-five loop goes index by index: an index
    without a label raises [IndexError] before anything is asked of the
    environment; otherwise the score [out[i]] is read and then the label
    [class_labels[i]] is printed with it, and the failure of either
    operation ends the loop.  So the labels shown are those of a leading
    stretch of the indices, in order; the scores read are those of a
    leading stretch of indices that all have a label, at most one longer;
    a run that completes has shown one label per index; and when no
    operation fails the loop either completes or stops with
    [IndexError] at the first index without a label, whose score was not
    read. *)
Theorem X5_top_five_loop
    (W : Type) (h : handler W) (w : W)
    (labels : list str) (out : obj) (idxs : list Z) :
  let r := run h (for_each idxs (PyTorch.print_top labels out)) w in
  loop_run labels out idxs (trace_of r) (outcome_of r) /\
  exists k k',
    (k <= k' <= S k)%nat /\ (k' <= List.length idxs)%nat /\
    shown (trace_of r) = flat_map (label_at labels) (firstn k idxs) /\
    score_reads (trace_of r) = firstn k' idxs /\
    Forall (in_range labels) (firstn k' idxs) /\
    (completed (outcome_of r) = true -> k = List.length idxs) /\
    (Pipeline.last_failure (trace_of r) = None ->
       outcome_of r = Returned tt \/
       exists i, nth_error idxs k' = Some i /\
                 PyList.getitem labels i = None /\
                 outcome_of r = Raised IndexError).
Proof.
  intros r.
  pose proof (all_runs_sound h _ _ (print_loop_run labels out idxs) w) as H.
  fold r in H. split; [exact H|]. exact (loop_run_summary H).
Qed.

(** With three labels, the indices 2, -1, 3 show the last label twice,
    read two scores and stop at 3. *)
Example top_five_loop_demo :
  let labels := [py "a"; py "b"; py "c"] in
  let r := run Demo.handle (for_each [2; -1; 3] (PyTorch.print_top labels 7%N))
               Demo.start in
  shown (trace_of r) = [VStr (py "c"); VStr (py "c")] /\
  score_reads (trace_of r) = [2; -1] /\
  outcome_of r = Raised IndexError.
Proof. vm_compute. repeat split. Qed.

(* ------------------------------------------------------------------ *)

Lemma reported_flat_map_nil {B} (f : event -> list B) (tr : list event) :
  (forall e, is_report e = true -> f e = []) ->
  reported tr -> flat_map f tr = [].
Proof.
  intros Hf. induction 1 as [|e tr [Hr _] _ IH]; [reflexivity|].
  cbn [flat_map]. now rewrite (Hf e Hr), IH.
Qed.

Lemma report_entered e : is_report e = true -> entered_of e = [].
Proof.
  destruct e as [o r]. unfold is_report. simpl.
  destruct o as [| c ? ? | | | | | | |]; try discriminate; reflexivity.
Qed.

Lemma report_exited e : is_report e = true -> exited_of e = [].
Proof.
  destruct e as [o r]. unfold is_report, exited_of. simpl.
  destruct o as [| c ? ? | | | | | | |]; try discriminate; reflexivity.
Qed.

Lemma report_made e : is_report e = true -> made_of e = [].
Proof.
  destruct e as [o r]. unfold is_report. simpl.
  destruct o as [| c ? ? | | | | | | |]; try discriminate;
    try (destruct r; reflexivity).
  destruct c; try discriminate; destruct r; reflexivity.
Qed.

Ltac ctx_norm :=
  unfold entered, exited, made;
  cbn [flat_map entered_of exited_of made_of ev_op ev_res app];
  rewrite ?flat_map_app;
  try match goal with
  | H : reported ?tr |- _ =>
      rewrite ?(reported_flat_map_nil entered_of report_entered H),
        ?(reported_flat_map_nil exited_of report_exited H),
        ?(reported_flat_map_nil made_of report_made H)
  end;
  try match goal with
  | H : is_report ?e = true |- _ =>
      cbn [flat_map];
      rewrite ?(report_entered _ H), ?(report_exited _ H),
        ?(report_made _ H)
  end;
  cbn [flat_map entered_of exited_of made_of ev_op ev_res app].

Lemma report_bracketed e st rest :
  is_report e = true -> bracketed st (e :: rest) = bracketed st rest.
Proof.
  destruct e as [o r]. unfold is_report. cbn [ev_op].
  destruct o as [| c ? ? | | | | | | |]; try discriminate.
  - destruct c; try discriminate. intros _. reflexivity.
  - intros _. reflexivity.
Qed.

Lemma report_entering e : is_report e = true -> entering_of e = [].
Proof.
  destruct e as [o r]. unfold is_report, entering_of. simpl.
  destruct o as [| c ? ? | | | | | | |]; try discriminate; reflexivity.
Qed.

Lemma reported_bracketed tr st rest :
  reported tr -> bracketed st (tr ++ rest) = bracketed st rest.
Proof.
  induction 1 as [|e tr [Hr _] _ IH]; [reflexivity|].
  cbn [app]. now rewrite (@report_bracketed _ _ _ Hr).
Qed.

Lemma reported_bracketed_end tr st :
  reported tr -> bracketed st tr = bracketed st [].
Proof.
  intros H. rewrite <- (app_nil_r tr) at 1. now apply reported_bracketed.
Qed.

Ltac bracket_norm :=
  repeat first
    [ match goal with
      | H : reported ?tr |- context [bracketed _ (?tr ++ _)] =>
          rewrite (@reported_bracketed _ _ _ H)
      | H : reported ?tr |- context [bracketed _ ?tr] =>
          rewrite (@reported_bracketed_end _ _ H)
      | H : is_report ?e = true |- context [bracketed _ (?e :: _)] =>
          rewrite (@report_bracketed _ _ _ H)
      end
    | rewrite N.eqb_refl
    | rewrite <- app_assoc
    | progress cbn [bracketed inference_call app andb] ].

Lemma xgboost_with_blocks_kept (platform : str) :
  all_runs (XGBoost.notebook platform) (fun tr _ => with_blocks_kept tr).
Proof.
  wp_run.
  all: unfold with_blocks_kept; split; [bracket_norm; reflexivity|].
  all: unfold entering; cbn [flat_map entering_of ev_op app]; ctx_norm.
  all: split; reflexivity.
Qed.

Lemma pytorch_with_blocks_kept (platform : str) :
  all_runs (PyTorch.notebook platform) (fun tr _ => with_blocks_kept tr).
Proof.
  wp_full.
  all: unfold with_blocks_kept; split; [bracket_norm; reflexivity|].
  all: unfold entering; cbn [flat_map entering_of ev_op app]; ctx_norm.
  all: rewrite ?flat_map_app;
    try match goal with
    | H : reported ?tr |- _ =>
        rewrite ?(reported_flat_map_nil entering_of report_entering H)
    end;
    try match goal with
    | H : is_report ?e = true |- _ =>
        cbn [flat_map]; rewrite ?(report_entering _ H)
    end;
    cbn [flat_map entering_of ev_op app].
  all: split; reflexivity.
Qed.

(** X6.  The [with] blocks of both notebooks are kept in every run,
    whatever fails inside them.  Every object that [open] (on the
    feature-map file) or [torch.no_grad] returned is entered as a [with]
    block, and nothing else is; every block that is entered is left;
    blocks are left innermost first and none is open when the run ends;
    [readlines] is called only on the file that the open block bound,
    and the model is applied ([torch_model(input_batch)[0].numpy()])
    only inside a block.  In particular the feature-map file is closed
    also when the loop over its lines raises. *)
Theorem X6_with_blocks_are_left
    (W : Type) (h : handler W) (w : W) (platform : str) :
  let x := trace_of (run h (XGBoost.notebook platform) w) in
  let p := trace_of (run h (PyTorch.notebook platform) w) in
  (bracketed [] x = true /\ entering x = made x /\ exited x = entered x) /\
  (bracketed [] p = true /\ entering p = made p /\ exited p = entered p).
Proof.
  intros x p. split.
  - exact (all_runs_sound h _ _ (xgboost_with_blocks_kept platform) w).
  - exact (all_runs_sound h _ _ (pytorch_with_blocks_kept platform) w).
Qed.

(** The file is closed in the run that meets a blank line. *)
Example with_block_demo :
  let tr := trace_of (run Demo.handle (XGBoost.notebook Demo.linux)
                          world_blank_line) in
  entering tr = [15%N] /\ entered tr = [15%N] /\ exited tr = [15%N] /\
  made tr = [15%N] /\ bracketed [] tr = true.
Proof. vm_compute. repeat split. Qed.

(** A trace that reads the lines of a file no block bound, or leaves a
    block open, is not well nested. *)
Example bracketed_demo :
  bracketed [] [Ev (Enter 1%N) (inl 2%N); Ev (Readlines 2%N) (inl []);
                Ev (Exit 1%N) (inl tt)] = true /\
  bracketed [] [Ev (Readlines 2%N) (inl [])] = false /\
  bracketed [] [Ev (Enter 1%N) (inl 2%N); Ev (Readlines 3%N) (inl []);
                Ev (Exit 1%N) (inl tt)] = false /\
  bracketed [] [Ev (Enter 1%N) (inl 2%N); Ev (Readlines 2%N) (inl [])]
    = false /\
  bracketed [] [Ev (LibCall Module_call [] []) (inl 4%N)] = false.
Proof. vm_compute. repeat split. Qed.

(* ------------------------------------------------------------------ *)

Ltac ends_with :=
  lazymatch goal with
  | |- exists t, ?tr = t ++ _ => exists (removelast tr); reflexivity
  | |- exists t e', ?tr = t ++ _ /\ _ =>
      exists (removelast (removelast tr)),
             (last tr (Ev (Import []) (inl tt)));
      split; reflexivity
  end.

Lemma pytorch_label_assertion (platform : str) :
  all_runs (PyTorch.notebook platform) (fun tr out =>
    forall e text, In e tr -> text_decoded e = Some text ->
      List.length (splitlines text) <> 1001%nat ->
      label_cell_stop e tr out).
Proof.
  wp_full.
  all: intros evt text Hin Htext Hlen.
  all: in_cases_seg Hin.
  all: try (subst evt; discriminate Htext).
  all: try (rewrite (@reported_text_decoded _ _ Hrep Hin) in Htext;
            discriminate Htext).
  all: try (subst evt; rewrite (@report_text_decoded _ Hev) in Htext;
            discriminate Htext).
  all: subst evt; injection Htext as <-.
  all: pose proof (proj2 (proj2 (class_labels_spec _)) Hlen) as Hfail.
  all: match goal with
       | H : PyTorch.class_labels_of _ = _ |- _ =>
           rewrite Hfail in H; try discriminate H; injection H as <-
       end.
  all: unfold label_cell_stop.
  all: split; [reflexivity|].
  all: split; [ends_with|].
  all: repeat split; reflexivity.
Qed.

(** X13.  When the downloaded text does not split into 1001 lines, the
    run of the PyTorch notebook ends at the label cell with an
    [AssertionError], and decoding the text is its last operation.  By
    then the model has been fetched with [torch.hub.load] and the labels
    with [urlopen], and these two are all the run fetches; the pipeline
    operations performed are the two that build the model and the label
    download, each with success, and no other: the image is never
    opened, nothing is converted, saved, reloaded or predicted, and no
    file of the working directory is read or written. *)
Theorem X13_label_assertion_stops_the_run
    (W : Type) (h : handler W) (w : W) (platform : str)
    (e : event) (text : str) :
  let r := run h (PyTorch.notebook platform) w in
  In e (trace_of r) ->
  text_decoded e = Some text ->
  List.length (splitlines text) <> 1001%nat ->
  outcome_of r = Raised AssertionError /\
  (exists tr0, trace_of r = tr0 ++ [e]) /\
  steps (trace_of r)
    = [ ((Pipeline.BuildModel, torch_hub_load, []), true);
        ((Pipeline.BuildModel, torch_nn_Sequential, []), true);
        ((Pipeline.LoadData, urllib_request_urlopen, []), true) ] /\
  Effects.fetches (trace_of r)
    = [ Effects.HubModel (py "pytorch/vision:v0.6.0") (py "mobilenet_v2");
        Effects.Url PyTorch.label_url ] /\
  Effects.reads (trace_of r) = [] /\
  Effects.writes (trace_of r) = [].
Proof.
  intros r Hin Htext Hlen.
  exact (all_runs_sound h _ _ (pytorch_label_assertion platform) w
           e text Hin Htext Hlen).
Qed.

Lemma X13_label_assertion_witness :
  let r := run Demo.handle (PyTorch.notebook Demo.linux)
               world_short_labels in
  let e := nth 11 (trace_of r) (Ev (Import []) (inl tt)) in
  outcome_of r = Raised AssertionError /\
  (exists tr0, trace_of r = tr0 ++ [e]) /\
  steps (trace_of r)
    = [ ((Pipeline.BuildModel, torch_hub_load, []), true);
        ((Pipeline.BuildModel, torch_nn_Sequential, []), true);
        ((Pipeline.LoadData, urllib_request_urlopen, []), true) ] /\
  Effects.fetches (trace_of r)
    = [ Effects.HubModel (py "pytorch/vision:v0.6.0") (py "mobilenet_v2");
        Effects.Url PyTorch.label_url ] /\
  Effects.reads (trace_of r) = [] /\
  Effects.writes (trace_of r) = [].
Proof.
  intros r e.
  refine (@X13_label_assertion_stops_the_run
            Demo.world Demo.handle world_short_labels Demo.linux
            e (py "background") _ _ _).
  - apply nth_In. vm_compute. lia.
  - vm_compute. reflexivity.
  - vm_compute. discriminate.
Defined.

Lemma xgboost_short_line (platform : str) :
  all_runs (XGBoost.notebook platform) (fun tr out =>
    forall e lines, In e tr -> lines_read e = Some lines ->
      Exists (fun line => (List.length (split line) < 2)%nat) lines ->
      completed out = false /\
      (exists tr0 e', tr = tr0 ++ [e; e'] /\ Pipeline.is_exit e' = true) /\
      existsb is_xgboost_convert tr = false /\
      Effects.writes tr = []).
Proof.
  wp_run.
  all: intros evt lines Hin Hread Hshort.
  all: in_cases Hin; subst evt; try discriminate Hread.
  all: injection Hread as <-.
  all: apply (proj2 (proj2 (feature_names_loop_spec _))) in Hshort.
  all: match goal with
       | H : XGBoost.feature_names_loop _ _ = inl _ |- _ =>
           rewrite Hshort in H; discriminate H
       | H : XGBoost.feature_names_loop _ _ = inr ?x |- _ =>
           is_var x; clear H
       end.
  all: split; [reflexivity|].
  all: split; [ends_with|].
  all: split; reflexivity.
Qed.

(** X14.  When a line read from the feature map has fewer than two
    tokens, the run of the XGBoost notebook never completes: after
    reading the lines its only further operation is leaving the [with]
    block (closing the file), so no conversion is attempted and the
    artifact is not written. *)
Theorem X14_short_line_stops_the_run
    (W : Type) (h : handler W) (w : W) (platform : str)
    (e : event) (lines : list str) :
  let r := run h (XGBoost.notebook platform) w in
  In e (trace_of r) ->
  lines_read e = Some lines ->
  Exists (fun line => (List.length (split line) < 2)%nat) lines ->
  completed (outcome_of r) = false /\
  (exists tr0 e', trace_of r = tr0 ++ [e; e'] /\
                  Pipeline.is_exit e' = true) /\
  existsb is_xgboost_convert (trace_of r) = false /\
  Effects.writes (trace_of r) = [].
Proof.
  intros r Hin Hread Hshort.
  exact (all_runs_sound h _ _ (xgboost_short_line platform) w
           e lines Hin Hread Hshort).
Qed.

Lemma X14_short_line_witness :
  let r := run Demo.handle (XGBoost.notebook Demo.linux) world_blank_line in
  let e := nth 20 (trace_of r) (Ev (Import []) (inl tt)) in
  outcome_of r = Raised IndexError /\
  completed (outcome_of r) = false /\
  (exists tr0 e', trace_of r = tr0 ++ [e; e'] /\
                  Pipeline.is_exit e' = true) /\
  existsb is_xgboost_convert (trace_of r) = false /\
  Effects.writes (trace_of r) = [].
Proof.
  intros r e. split; [vm_compute; reflexivity|].
  refine (@X14_short_line_stops_the_run
            Demo.world Demo.handle world_blank_line Demo.linux
            e (Demo.featmap_lines world_blank_line) _ _ _).
  - apply nth_In. vm_compute. lia.
  - vm_compute. reflexivity.
  - apply Exists_cons_tl. apply Exists_cons_hd. vm_compute. lia.
Defined.
